(** * SpectrogramLayer: a model of layer/SpectrogramLayer.cpp

    The layer is a C++ object with mutable members.  It is embedded as a
    record [Layer] holding the members the code reads and writes, and every
    member function becomes a function from layers to layers (plus a result
    where the C++ returns one).  [const] members that rebuild [mutable]
    caches ([getFFTModel], [getRenderer]) return the new layer as well.

    Numbers.  [int] members are [Z]; signed overflow is undefined in C++, so
    the model covers the executions in which it does not occur.  Where the
    code casts a 64-bit integer to [int] the cast is modelled, by
    [int_of_int64].  The gain
    and the threshold, which are stored, compared and divided, are rationals
    [Q] (every finite float is one).  Sample rates, frequencies, bin
    positions and pixel rows are real numbers [R], since the axis and the
    zoom mapper take square roots and logarithms.  Rounding of the floating
    point operations themselves is not modelled. *)

From Stdlib Require Import ZArith QArith Qround Reals Lra Lia List String Ascii Bool.
From stdpp Require Import base option gmap.
Import ListNotations.
Open Scope Z_scope.

(** ** Enumerations *)

(** [ColourScaleType], with the members the layer names. *)
Inductive ColourScaleType :=
| CS_Linear | CS_Meter | CS_Log | CS_Phase | CS_PlusMinusOne | CS_Absolute.

(** [ColumnNormalization]. *)
Inductive ColumnNormalization :=
| CN_None | CN_Sum1 | CN_Max1 | CN_Hybrid.

(** [BinScale] and [BinDisplay] are enum classes over [int];
    [setProperties] casts an arbitrary attribute integer to them, so they are
    kept as their integer value, with the named members as constants. *)
Definition BinScale := Z.
Definition BinScale_Linear : BinScale := 0.
Definition BinScale_Log : BinScale := 1.

Definition BinDisplay := Z.
Definition BinDisplay_AllBins : BinDisplay := 0.
Definition BinDisplay_PeakBins : BinDisplay := 1.
Definition BinDisplay_PeakFrequencies : BinDisplay := 2.

(** [Preferences::SpectrogramSmoothing]. *)
Inductive SpectrogramSmoothing :=
| NoSpectrogramSmoothing
| SpectrogramInterpolated
| SpectrogramZeroPadded
| SpectrogramZeroPaddedAndInterpolated.

(** The constructor's [Configuration] argument. *)
Inductive Configuration :=
| FullRangeDb | MelodicRange | MelodicPeaks | OtherConfiguration.

Definition eqb_ColourScaleType (a b : ColourScaleType) : bool :=
  match a, b with
  | CS_Linear, CS_Linear | CS_Meter, CS_Meter | CS_Log, CS_Log
  | CS_Phase, CS_Phase | CS_PlusMinusOne, CS_PlusMinusOne
  | CS_Absolute, CS_Absolute => true
  | _, _ => false
  end.

Definition eqb_ColumnNormalization (a b : ColumnNormalization) : bool :=
  match a, b with
  | CN_None, CN_None | CN_Sum1, CN_Sum1 | CN_Max1, CN_Max1
  | CN_Hybrid, CN_Hybrid => true
  | _, _ => false
  end.

(** ** Collaborators *)

(** The source model ([DenseTimeValueModel]), as far as the layer asks it. *)
Record DenseTimeValueModel := MkModel {
  getSampleRate : R;
  isOK : bool;
  isReady : bool;
  getStartFrame : Z;
  getEndFrame : Z
}.

(** What an [FFTModel] object answers when asked: [isOK], [getCompletion],
    [getError], [getWidth], [isLocalPeak (s, q)],
    [isOverThreshold (s, q, threshold)] and the frequency that
    [estimateStableFrequency (s, q, freq)] leaves in its reference argument
    [freq] (given the value it held before the call). *)
Record FFTBackend := MkBackend {
  be_isOK : bool;
  be_completion : Z;
  be_error : string;
  be_width : Z;
  be_isLocalPeak : Z -> Z -> bool;
  be_isOverThreshold : Z -> Z -> Q -> bool;
  be_estimateStableFrequency : Z -> Z -> R -> R
}.

(** An [FFTModel] object.  [fft_id] is the identity of the C++ object (the
    number of FFT models the layer had constructed before it), the next five
    fields are the constructor arguments. *)
Record FFTModel := MkFFT {
  fft_id : nat;
  fft_channel : Z;
  fft_windowType : Z;
  fft_windowSize : Z;
  fft_windowIncrement : Z;
  fft_fftSize : Z;
  fft_backend : FFTBackend
}.

(** Modelled from the spec: [FFTModel::getHeight] is declared outside the
    layer; a Transform Frame holds one value per frequency bin
    [0..fftSize/2], so the model has [fftSize/2 + 1] rows. *)
Definition getHeight (f : FFTModel) : Z := fft_fftSize f `quot` 2 + 1.

(** What surrounds the layer: the preferences singleton, the settings store,
    the string-to-number conversions of [QString], the fate of each FFT model
    allocation, and the one member function of the layer that lives in its
    header. *)
Record World := MkWorld {
  getSpectrogramSmoothing : SpectrogramSmoothing;
  prefsWindowType : Z;
  HanningWindow : Z;
  settingsValue : string -> Z -> Z;
  ColourMapper_Green : Z;
  ColourMapper_Sunset : Z;
  toInt : string -> option Z;
  toUInt : string -> option Z;
  toFloat : string -> option Q;
  (** what the k-th FFT model the layer constructs will answer *)
  fftBackend : nat -> FFTBackend;
  (** [getWindowIncrement], from window size and hop level *)
  windowIncrementOf : Z -> Z -> Z
}.

(** Modelled from the spec: [getWindowIncrement] is defined in the layer's
    header; the spec gives [hopSize = windowSize >> windowHopLevel]. *)
Definition specWindowIncrement (windowSize hopLevel : Z) : Z :=
  Z.shiftr windowSize hopLevel.

(** A [Colour3DPlotRenderer], as the parameters [getRenderer] builds it
    from.  [None] in an optional field means the field was left at the
    default of [ColourScale::Parameters]. *)
Record Colour3DPlotRenderer := MkRenderer {
  r_fft : option FFTModel;
  r_peaks : option nat;
  r_colourMap : Z;
  r_scale : ColourScaleType;
  r_gain : option Q;
  r_threshold : option Q;
  r_maxValue : option Q;
  r_normalization : ColumnNormalization;
  r_binDisplay : BinDisplay;
  r_binScale : BinScale;
  r_scaleFactor : Q;
  r_colourRotation : Z;
  r_interpolate : bool
}.

(** Signals the layer emits. *)
Inductive Signal :=
| layerParametersChanged
| verticalZoomChanged
| modelReplaced
| sliceableModelReplaced (from to : option nat)
| fftCacheFailedMessage.

(** ** The layer *)

Record Layer := MkLayer {
  m_model : option DenseTimeValueModel;
  m_channel : Z;
  m_windowSize : Z;
  m_windowType : Z;
  m_windowHopLevel : Z;
  m_gain : Q;
  m_threshold : Q;
  m_colourRotation : Z;
  m_minFrequency : Z;
  m_maxFrequency : Z;
  m_initialMaxFrequency : Z;
  m_colourScale : ColourScaleType;
  m_colourMap : Z;
  m_binScale : BinScale;
  m_binDisplay : BinDisplay;
  m_normalization : ColumnNormalization;
  m_normalizeVisibleArea : bool;
  m_lastEmittedZoomStep : Z;
  m_fftModel : option FFTModel;
  (** the peak cache, by the identity of the FFT model it summarises *)
  m_peakCache : option nat;
  m_renderers : gmap Z Colour3DPlotRenderer;
  (** per view, the observed (min, max) magnitude *)
  m_viewMags : gmap Z (Q * Q);
  (** signals emitted so far, latest first *)
  emitted : list Signal;
  (** number of FFT models constructed so far *)
  allocated : nat
}.

Definition with_model (v : _) (s : Layer) : Layer :=
  MkLayer v (m_channel s) (m_windowSize s) (m_windowType s)
    (m_windowHopLevel s) (m_gain s) (m_threshold s) (m_colourRotation s)
    (m_minFrequency s) (m_maxFrequency s) (m_initialMaxFrequency s)
    (m_colourScale s) (m_colourMap s) (m_binScale s) (m_binDisplay s)
    (m_normalization s) (m_normalizeVisibleArea s) (m_lastEmittedZoomStep s)
    (m_fftModel s) (m_peakCache s) (m_renderers s) (m_viewMags s) (emitted
    s) (allocated s).

Definition with_channel (v : _) (s : Layer) : Layer :=
  MkLayer (m_model s) v (m_windowSize s) (m_windowType s) (m_windowHopLevel
    s) (m_gain s) (m_threshold s) (m_colourRotation s) (m_minFrequency s)
    (m_maxFrequency s) (m_initialMaxFrequency s) (m_colourScale s)
    (m_colourMap s) (m_binScale s) (m_binDisplay s) (m_normalization s)
    (m_normalizeVisibleArea s) (m_lastEmittedZoomStep s) (m_fftModel s)
    (m_peakCache s) (m_renderers s) (m_viewMags s) (emitted s) (allocated s).

Definition with_windowSize (v : _) (s : Layer) : Layer :=
  MkLayer (m_model s) (m_channel s) v (m_windowType s) (m_windowHopLevel s)
    (m_gain s) (m_threshold s) (m_colourRotation s) (m_minFrequency s)
    (m_maxFrequency s) (m_initialMaxFrequency s) (m_colourScale s)
    (m_colourMap s) (m_binScale s) (m_binDisplay s) (m_normalization s)
    (m_normalizeVisibleArea s) (m_lastEmittedZoomStep s) (m_fftModel s)
    (m_peakCache s) (m_renderers s) (m_viewMags s) (emitted s) (allocated s).

Definition with_windowType (v : _) (s : Layer) : Layer :=
  MkLayer (m_model s) (m_channel s) (m_windowSize s) v (m_windowHopLevel s)
    (m_gain s) (m_threshold s) (m_colourRotation s) (m_minFrequency s)
    (m_maxFrequency s) (m_initialMaxFrequency s) (m_colourScale s)
    (m_colourMap s) (m_binScale s) (m_binDisplay s) (m_normalization s)
    (m_normalizeVisibleArea s) (m_lastEmittedZoomStep s) (m_fftModel s)
    (m_peakCache s) (m_renderers s) (m_viewMags s) (emitted s) (allocated s).

Definition with_windowHopLevel (v : _) (s : Layer) : Layer :=
  MkLayer (m_model s) (m_channel s) (m_windowSize s) (m_windowType s) v
    (m_gain s) (m_threshold s) (m_colourRotation s) (m_minFrequency s)
    (m_maxFrequency s) (m_initialMaxFrequency s) (m_colourScale s)
    (m_colourMap s) (m_binScale s) (m_binDisplay s) (m_normalization s)
    (m_normalizeVisibleArea s) (m_lastEmittedZoomStep s) (m_fftModel s)
    (m_peakCache s) (m_renderers s) (m_viewMags s) (emitted s) (allocated s).

Definition with_gain (v : _) (s : Layer) : Layer :=
  MkLayer (m_model s) (m_channel s) (m_windowSize s) (m_windowType s)
    (m_windowHopLevel s) v (m_threshold s) (m_colourRotation s)
    (m_minFrequency s) (m_maxFrequency s) (m_initialMaxFrequency s)
    (m_colourScale s) (m_colourMap s) (m_binScale s) (m_binDisplay s)
    (m_normalization s) (m_normalizeVisibleArea s) (m_lastEmittedZoomStep s)
    (m_fftModel s) (m_peakCache s) (m_renderers s) (m_viewMags s) (emitted
    s) (allocated s).

Definition with_threshold (v : _) (s : Layer) : Layer :=
  MkLayer (m_model s) (m_channel s) (m_windowSize s) (m_windowType s)
    (m_windowHopLevel s) (m_gain s) v (m_colourRotation s) (m_minFrequency
    s) (m_maxFrequency s) (m_initialMaxFrequency s) (m_colourScale s)
    (m_colourMap s) (m_binScale s) (m_binDisplay s) (m_normalization s)
    (m_normalizeVisibleArea s) (m_lastEmittedZoomStep s) (m_fftModel s)
    (m_peakCache s) (m_renderers s) (m_viewMags s) (emitted s) (allocated s).

Definition with_colourRotation (v : _) (s : Layer) : Layer :=
  MkLayer (m_model s) (m_channel s) (m_windowSize s) (m_windowType s)
    (m_windowHopLevel s) (m_gain s) (m_threshold s) v (m_minFrequency s)
    (m_maxFrequency s) (m_initialMaxFrequency s) (m_colourScale s)
    (m_colourMap s) (m_binScale s) (m_binDisplay s) (m_normalization s)
    (m_normalizeVisibleArea s) (m_lastEmittedZoomStep s) (m_fftModel s)
    (m_peakCache s) (m_renderers s) (m_viewMags s) (emitted s) (allocated s).

Definition with_minFrequency (v : _) (s : Layer) : Layer :=
  MkLayer (m_model s) (m_channel s) (m_windowSize s) (m_windowType s)
    (m_windowHopLevel s) (m_gain s) (m_threshold s) (m_colourRotation s) v
    (m_maxFrequency s) (m_initialMaxFrequency s) (m_colourScale s)
    (m_colourMap s) (m_binScale s) (m_binDisplay s) (m_normalization s)
    (m_normalizeVisibleArea s) (m_lastEmittedZoomStep s) (m_fftModel s)
    (m_peakCache s) (m_renderers s) (m_viewMags s) (emitted s) (allocated s).

Definition with_maxFrequency (v : _) (s : Layer) : Layer :=
  MkLayer (m_model s) (m_channel s) (m_windowSize s) (m_windowType s)
    (m_windowHopLevel s) (m_gain s) (m_threshold s) (m_colourRotation s)
    (m_minFrequency s) v (m_initialMaxFrequency s) (m_colourScale s)
    (m_colourMap s) (m_binScale s) (m_binDisplay s) (m_normalization s)
    (m_normalizeVisibleArea s) (m_lastEmittedZoomStep s) (m_fftModel s)
    (m_peakCache s) (m_renderers s) (m_viewMags s) (emitted s) (allocated s).

Definition with_initialMaxFrequency (v : _) (s : Layer) : Layer :=
  MkLayer (m_model s) (m_channel s) (m_windowSize s) (m_windowType s)
    (m_windowHopLevel s) (m_gain s) (m_threshold s) (m_colourRotation s)
    (m_minFrequency s) (m_maxFrequency s) v (m_colourScale s) (m_colourMap
    s) (m_binScale s) (m_binDisplay s) (m_normalization s)
    (m_normalizeVisibleArea s) (m_lastEmittedZoomStep s) (m_fftModel s)
    (m_peakCache s) (m_renderers s) (m_viewMags s) (emitted s) (allocated s).

Definition with_colourScale (v : _) (s : Layer) : Layer :=
  MkLayer (m_model s) (m_channel s) (m_windowSize s) (m_windowType s)
    (m_windowHopLevel s) (m_gain s) (m_threshold s) (m_colourRotation s)
    (m_minFrequency s) (m_maxFrequency s) (m_initialMaxFrequency s) v
    (m_colourMap s) (m_binScale s) (m_binDisplay s) (m_normalization s)
    (m_normalizeVisibleArea s) (m_lastEmittedZoomStep s) (m_fftModel s)
    (m_peakCache s) (m_renderers s) (m_viewMags s) (emitted s) (allocated s).

Definition with_colourMap (v : _) (s : Layer) : Layer :=
  MkLayer (m_model s) (m_channel s) (m_windowSize s) (m_windowType s)
    (m_windowHopLevel s) (m_gain s) (m_threshold s) (m_colourRotation s)
    (m_minFrequency s) (m_maxFrequency s) (m_initialMaxFrequency s)
    (m_colourScale s) v (m_binScale s) (m_binDisplay s) (m_normalization s)
    (m_normalizeVisibleArea s) (m_lastEmittedZoomStep s) (m_fftModel s)
    (m_peakCache s) (m_renderers s) (m_viewMags s) (emitted s) (allocated s).

Definition with_binScale (v : _) (s : Layer) : Layer :=
  MkLayer (m_model s) (m_channel s) (m_windowSize s) (m_windowType s)
    (m_windowHopLevel s) (m_gain s) (m_threshold s) (m_colourRotation s)
    (m_minFrequency s) (m_maxFrequency s) (m_initialMaxFrequency s)
    (m_colourScale s) (m_colourMap s) v (m_binDisplay s) (m_normalization s)
    (m_normalizeVisibleArea s) (m_lastEmittedZoomStep s) (m_fftModel s)
    (m_peakCache s) (m_renderers s) (m_viewMags s) (emitted s) (allocated s).

Definition with_binDisplay (v : _) (s : Layer) : Layer :=
  MkLayer (m_model s) (m_channel s) (m_windowSize s) (m_windowType s)
    (m_windowHopLevel s) (m_gain s) (m_threshold s) (m_colourRotation s)
    (m_minFrequency s) (m_maxFrequency s) (m_initialMaxFrequency s)
    (m_colourScale s) (m_colourMap s) (m_binScale s) v (m_normalization s)
    (m_normalizeVisibleArea s) (m_lastEmittedZoomStep s) (m_fftModel s)
    (m_peakCache s) (m_renderers s) (m_viewMags s) (emitted s) (allocated s).

Definition with_normalization (v : _) (s : Layer) : Layer :=
  MkLayer (m_model s) (m_channel s) (m_windowSize s) (m_windowType s)
    (m_windowHopLevel s) (m_gain s) (m_threshold s) (m_colourRotation s)
    (m_minFrequency s) (m_maxFrequency s) (m_initialMaxFrequency s)
    (m_colourScale s) (m_colourMap s) (m_binScale s) (m_binDisplay s) v
    (m_normalizeVisibleArea s) (m_lastEmittedZoomStep s) (m_fftModel s)
    (m_peakCache s) (m_renderers s) (m_viewMags s) (emitted s) (allocated s).

Definition with_normalizeVisibleArea (v : _) (s : Layer) : Layer :=
  MkLayer (m_model s) (m_channel s) (m_windowSize s) (m_windowType s)
    (m_windowHopLevel s) (m_gain s) (m_threshold s) (m_colourRotation s)
    (m_minFrequency s) (m_maxFrequency s) (m_initialMaxFrequency s)
    (m_colourScale s) (m_colourMap s) (m_binScale s) (m_binDisplay s)
    (m_normalization s) v (m_lastEmittedZoomStep s) (m_fftModel s)
    (m_peakCache s) (m_renderers s) (m_viewMags s) (emitted s) (allocated s).

Definition with_lastEmittedZoomStep (v : _) (s : Layer) : Layer :=
  MkLayer (m_model s) (m_channel s) (m_windowSize s) (m_windowType s)
    (m_windowHopLevel s) (m_gain s) (m_threshold s) (m_colourRotation s)
    (m_minFrequency s) (m_maxFrequency s) (m_initialMaxFrequency s)
    (m_colourScale s) (m_colourMap s) (m_binScale s) (m_binDisplay s)
    (m_normalization s) (m_normalizeVisibleArea s) v (m_fftModel s)
    (m_peakCache s) (m_renderers s) (m_viewMags s) (emitted s) (allocated s).

Definition with_fftModel (v : _) (s : Layer) : Layer :=
  MkLayer (m_model s) (m_channel s) (m_windowSize s) (m_windowType s)
    (m_windowHopLevel s) (m_gain s) (m_threshold s) (m_colourRotation s)
    (m_minFrequency s) (m_maxFrequency s) (m_initialMaxFrequency s)
    (m_colourScale s) (m_colourMap s) (m_binScale s) (m_binDisplay s)
    (m_normalization s) (m_normalizeVisibleArea s) (m_lastEmittedZoomStep s)
    v (m_peakCache s) (m_renderers s) (m_viewMags s) (emitted s) (allocated
    s).

Definition with_peakCache (v : _) (s : Layer) : Layer :=
  MkLayer (m_model s) (m_channel s) (m_windowSize s) (m_windowType s)
    (m_windowHopLevel s) (m_gain s) (m_threshold s) (m_colourRotation s)
    (m_minFrequency s) (m_maxFrequency s) (m_initialMaxFrequency s)
    (m_colourScale s) (m_colourMap s) (m_binScale s) (m_binDisplay s)
    (m_normalization s) (m_normalizeVisibleArea s) (m_lastEmittedZoomStep s)
    (m_fftModel s) v (m_renderers s) (m_viewMags s) (emitted s) (allocated
    s).

Definition with_renderers (v : _) (s : Layer) : Layer :=
  MkLayer (m_model s) (m_channel s) (m_windowSize s) (m_windowType s)
    (m_windowHopLevel s) (m_gain s) (m_threshold s) (m_colourRotation s)
    (m_minFrequency s) (m_maxFrequency s) (m_initialMaxFrequency s)
    (m_colourScale s) (m_colourMap s) (m_binScale s) (m_binDisplay s)
    (m_normalization s) (m_normalizeVisibleArea s) (m_lastEmittedZoomStep s)
    (m_fftModel s) (m_peakCache s) v (m_viewMags s) (emitted s) (allocated
    s).

Definition with_viewMags (v : _) (s : Layer) : Layer :=
  MkLayer (m_model s) (m_channel s) (m_windowSize s) (m_windowType s)
    (m_windowHopLevel s) (m_gain s) (m_threshold s) (m_colourRotation s)
    (m_minFrequency s) (m_maxFrequency s) (m_initialMaxFrequency s)
    (m_colourScale s) (m_colourMap s) (m_binScale s) (m_binDisplay s)
    (m_normalization s) (m_normalizeVisibleArea s) (m_lastEmittedZoomStep s)
    (m_fftModel s) (m_peakCache s) (m_renderers s) v (emitted s) (allocated
    s).

Definition with_emitted (v : _) (s : Layer) : Layer :=
  MkLayer (m_model s) (m_channel s) (m_windowSize s) (m_windowType s)
    (m_windowHopLevel s) (m_gain s) (m_threshold s) (m_colourRotation s)
    (m_minFrequency s) (m_maxFrequency s) (m_initialMaxFrequency s)
    (m_colourScale s) (m_colourMap s) (m_binScale s) (m_binDisplay s)
    (m_normalization s) (m_normalizeVisibleArea s) (m_lastEmittedZoomStep s)
    (m_fftModel s) (m_peakCache s) (m_renderers s) (m_viewMags s) v
    (allocated s).

Definition with_allocated (v : _) (s : Layer) : Layer :=
  MkLayer (m_model s) (m_channel s) (m_windowSize s) (m_windowType s)
    (m_windowHopLevel s) (m_gain s) (m_threshold s) (m_colourRotation s)
    (m_minFrequency s) (m_maxFrequency s) (m_initialMaxFrequency s)
    (m_colourScale s) (m_colourMap s) (m_binScale s) (m_binDisplay s)
    (m_normalization s) (m_normalizeVisibleArea s) (m_lastEmittedZoomStep s)
    (m_fftModel s) (m_peakCache s) (m_renderers s) (m_viewMags s) (emitted
    s) v.

Definition emit (sig : Signal) (s : Layer) : Layer :=
  with_emitted (sig :: emitted s) s.

(** ** Cache invalidation *)

Definition invalidateRenderers (s : Layer) : Layer :=
  with_renderers (∅ : gmap Z Colour3DPlotRenderer) s.

Definition invalidateMagnitudes (s : Layer) : Layer :=
  with_viewMags (∅ : gmap Z (Q * Q)) s.

Definition invalidateFFTModel (s : Layer) : Layer :=
  let s := emit (sliceableModelReplaced (fft_id <$> m_fftModel s) None) s in
  with_peakCache None (with_fftModel None s).

Definition cacheInvalid (s : Layer) : Layer :=
  invalidateMagnitudes (invalidateRenderers s).

(** ** Transform parameters *)

Definition getFFTOversampling (w : World) (s : Layer) : Z :=
  if negb (m_binDisplay s =? BinDisplay_AllBins) then 1
  else match getSpectrogramSmoothing w with
       | NoSpectrogramSmoothing | SpectrogramInterpolated => 1
       | _ => 4
       end.

Definition getFFTSize (w : World) (s : Layer) : Z :=
  m_windowSize s * getFFTOversampling w s.

Definition getWindowIncrement (w : World) (s : Layer) : Z :=
  windowIncrementOf w (m_windowSize s) (m_windowHopLevel s).

Definition setChannel (ch : Z) (s : Layer) : Layer :=
  if m_channel s =? ch then s
  else
    let s := invalidateRenderers s in
    let s := with_channel ch s in
    let s := invalidateFFTModel s in
    emit layerParametersChanged s.

Definition setWindowSize (ws : Z) (s : Layer) : Layer :=
  if m_windowSize s =? ws then s
  else
    let s := invalidateRenderers s in
    let s := with_windowSize ws s in
    let s := invalidateFFTModel s in
    emit layerParametersChanged s.

Definition setWindowHopLevel (v : Z) (s : Layer) : Layer :=
  if m_windowHopLevel s =? v then s
  else
    let s := invalidateRenderers s in
    let s := with_windowHopLevel v s in
    let s := invalidateFFTModel s in
    emit layerParametersChanged s.

Definition setWindowType (wt : Z) (s : Layer) : Layer :=
  if m_windowType s =? wt then s
  else
    let s := invalidateRenderers s in
    let s := with_windowType wt s in
    let s := invalidateFFTModel s in
    emit layerParametersChanged s.

(** ** Display parameters *)

Definition setGain (gain : Q) (s : Layer) : Layer :=
  if Qeq_bool (m_gain s) gain then s
  else
    let s := invalidateRenderers s in
    let s := with_gain gain s in
    emit layerParametersChanged s.

Definition setThreshold (threshold : Q) (s : Layer) : Layer :=
  if Qeq_bool (m_threshold s) threshold then s
  else
    let s := invalidateRenderers s in
    let s := with_threshold threshold s in
    emit layerParametersChanged s.

Definition setMinFrequency (mf : Z) (s : Layer) : Layer :=
  if m_minFrequency s =? mf then s
  else
    let s := invalidateRenderers s in
    let s := invalidateMagnitudes s in
    let s := with_minFrequency mf s in
    emit layerParametersChanged s.

Definition setMaxFrequency (mf : Z) (s : Layer) : Layer :=
  if m_maxFrequency s =? mf then s
  else
    let s := invalidateRenderers s in
    let s := invalidateMagnitudes s in
    let s := with_maxFrequency mf s in
    emit layerParametersChanged s.

Definition setColourRotation (r : Z) (s : Layer) : Layer :=
  let r := if r <? 0 then 0 else r in
  let r := if r >? 256 then 256 else r in
  let distance := r - m_colourRotation s in
  let s := if negb (distance =? 0) then with_colourRotation r s else s in
  let s := invalidateRenderers s in
  emit layerParametersChanged s.

Definition setColourScale (colourScale : ColourScaleType) (s : Layer) : Layer :=
  if eqb_ColourScaleType (m_colourScale s) colourScale then s
  else
    let s := invalidateRenderers s in
    let s := with_colourScale colourScale s in
    emit layerParametersChanged s.

Definition setColourMap (map : Z) (s : Layer) : Layer :=
  if m_colourMap s =? map then s
  else
    let s := invalidateRenderers s in
    let s := with_colourMap map s in
    emit layerParametersChanged s.

Definition setBinScale (binScale : BinScale) (s : Layer) : Layer :=
  if m_binScale s =? binScale then s
  else
    let s := invalidateRenderers s in
    let s := with_binScale binScale s in
    emit layerParametersChanged s.

Definition setBinDisplay (binDisplay : BinDisplay) (s : Layer) : Layer :=
  if m_binDisplay s =? binDisplay then s
  else
    let s := invalidateRenderers s in
    let s := with_binDisplay binDisplay s in
    emit layerParametersChanged s.

Definition setNormalization (n : ColumnNormalization) (s : Layer) : Layer :=
  if eqb_ColumnNormalization (m_normalization s) n then s
  else
    let s := invalidateRenderers s in
    let s := invalidateMagnitudes s in
    let s := with_normalization n s in
    emit layerParametersChanged s.

Definition setNormalizeVisibleArea (n : bool) (s : Layer) : Layer :=
  if Bool.eqb (m_normalizeVisibleArea s) n then s
  else
    let s := invalidateRenderers s in
    let s := invalidateMagnitudes s in
    let s := with_normalizeVisibleArea n s in
    emit layerParametersChanged s.

(** ** Conversions between doubles and ints *)

Definition Rltb (x y : R) : bool := if Rlt_dec x y then true else false.
Definition Rleb (x y : R) : bool := if Rle_dec x y then true else false.

(** [int(x)]: truncation towards zero. *)
Definition to_int (x : R) : Z := if Rle_dec 0 x then Zfloor x else Zceil x.

(** [lrint(x)]: the nearest integer, ties to even. *)
Definition lrint (x : R) : Z :=
  let f := Zfloor x in
  let d := (x - IZR f)%R in
  if Rlt_dec d (1 / 2) then f
  else if Rlt_dec (1 / 2) d then f + 1
  else if Z.even f then f else f + 1.

(** [int(z)] for a 64-bit integer [z] (an [sv_frame_t], or the [long] that
    [lrint] returns): the value is reduced modulo [2^32] into the range of
    [int]. *)
Definition int_of_int64 (z : Z) : Z :=
  (z + 2147483648) mod 4294967296 - 2147483648.

(** ** The FFT model and the caches built on it *)

Definition newFFTModel (w : World) (s : Layer) : FFTModel :=
  MkFFT (allocated s) (m_channel s) (m_windowType s) (m_windowSize s)
        (getWindowIncrement w s) (getFFTSize w s) (fftBackend w (allocated s)).

Definition getFFTModel (w : World) (s : Layer) : option FFTModel * Layer :=
  match m_model s with
  | None => (None, s)
  | Some _ =>
    let fftSize := getFFTSize w s in
    let current :=
      match m_fftModel s with
      | Some f => (getHeight f =? fftSize `quot` 2 + 1)
                  && (fft_windowIncrement f =? getWindowIncrement w s)
      | None => false
      end in
    if current then (m_fftModel s, s)
    else
      let s := with_peakCache None s in
      let f := newFFTModel w s in
      let s := with_allocated (S (allocated s)) s in
      if negb (be_isOK (fft_backend f)) then
        let s := emit fftCacheFailedMessage s in
        (None, with_fftModel None s)
      else
        let s := with_fftModel (Some f) s in
        let s := emit (sliceableModelReplaced None (Some (fft_id f))) s in
        (Some f, s)
  end.

Definition getPeakCache (w : World) (s : Layer) : option nat * Layer :=
  match m_peakCache s with
  | Some p => (Some p, s)
  | None =>
    let '(f, s) := getFFTModel w s in
    match f with
    | None => (None, s)
    | Some f => (Some (fft_id f), with_peakCache (Some (fft_id f)) s)
    end
  end.

Definition setModel (model : option DenseTimeValueModel) (same : bool)
    (s : Layer) : Layer :=
  (* [same]: the pointer comparison [model == m_model] *)
  if same then s
  else
    let s := with_model model s in
    let s := invalidateFFTModel s in
    match model with
    | Some m => if isOK m then emit modelReplaced s else s
    | None => s
    end.

(** The constructor. *)
Definition SpectrogramLayer_new (w : World) (config : Configuration) : Layer :=
  let s := MkLayer None 0 1024 (HanningWindow w) 2 1 (1 # 100000000) 0 10 8000
             8000 CS_Log 0
             BinScale_Linear BinDisplay_AllBins CN_None false (-1) None None
             ∅ ∅ [] 0%nat in
  let '(s, colourConfigName, colourConfigDefault) :=
    match config with
    | FullRangeDb =>
      let s := with_initialMaxFrequency 0 s in
      (setMaxFrequency 0 s, "spectrogram-colour"%string, ColourMapper_Green w)
    | MelodicRange =>
      let s := setWindowSize 8192 s in
      let s := setWindowHopLevel 4 s in
      let s := with_initialMaxFrequency 1500 s in
      let s := setMaxFrequency 1500 s in
      let s := setMinFrequency 40 s in
      let s := setColourScale CS_Linear s in
      let s := setColourMap (ColourMapper_Sunset w) s in
      let s := setBinScale BinScale_Log s in
      (s, "spectrogram-melodic-colour"%string, ColourMapper_Sunset w)
    | MelodicPeaks =>
      let s := setWindowSize 4096 s in
      let s := setWindowHopLevel 5 s in
      let s := with_initialMaxFrequency 2000 s in
      let s := setMaxFrequency 2000 s in
      let s := setMinFrequency 40 s in
      let s := setBinScale BinScale_Log s in
      let s := setColourScale CS_Linear s in
      let s := setBinDisplay BinDisplay_PeakFrequencies s in
      let s := setNormalization CN_Max1 s in
      (s, "spectrogram-melodic-colour"%string, ColourMapper_Sunset w)
    | OtherConfiguration =>
      (s, "spectrogram-colour"%string, ColourMapper_Green w)
    end in
  let s := setColourMap (settingsValue w colourConfigName colourConfigDefault) s in
  setWindowType (prefsWindowType w) s.

(** A view ([LayerGeometryProvider]), an object with virtual members. *)
Record LayerGeometryProvider := MkView {
  getId : Z;
  getPaintHeight : Z;
  getFrameForX : Z -> Z;
  v_getYForFrequency : R -> R -> R -> bool -> R;
  v_getFrequencyForY : R -> R -> R -> bool -> R
}.

Definition getRenderer (w : World) (v : LayerGeometryProvider) (s : Layer)
  : option Colour3DPlotRenderer * Layer :=
  match m_renderers s !! getId v with
  | Some r => (Some r, s)
  | None =>
    let '(fft, s) := getFFTModel w s in
    let '(peaks, s) := getPeakCache w s in
    let phase := eqb_ColourScaleType (m_colourScale s) CS_Phase in
    let maxValue :=
      if eqb_ColourScaleType (m_colourScale s) CS_Linear
         && eqb_ColumnNormalization (m_normalization s) CN_None
      then Some (if Qle_bool (1 # 10) (m_threshold s)
                 then (m_threshold s + (1 # 10))%Q else (1 # 10)%Q)
      else None in
    let scaleFactor :=
      if phase then 1%Q else (2 / inject_Z (getFFTSize w s))%Q in
    let interpolate :=
      match getSpectrogramSmoothing w with
      | SpectrogramInterpolated | SpectrogramZeroPaddedAndInterpolated => true
      | _ => false
      end in
    let r := MkRenderer fft peaks (m_colourMap s) (m_colourScale s)
               (if phase then None else Some (m_gain s))
               (if phase then None else Some (m_threshold s))
               maxValue (m_normalization s) (m_binDisplay s) (m_binScale s)
               scaleFactor (m_colourRotation s) interpolate in
    (Some r, with_renderers (<[getId v := r]> (m_renderers s)) s)
  end.

Definition getCompletion (s : Layer) (v : LayerGeometryProvider) : Z :=
  match m_fftModel s with
  | None => 100
  | Some f => be_completion (fft_backend f)
  end.

Definition getError (s : Layer) (v : LayerGeometryProvider) : string :=
  match m_fftModel s with
  | None => EmptyString
  | Some f => be_error (fft_backend f)
  end.

(** ** The frequency axis

    Members that dereference [m_model] without testing it return [None]
    when there is no model (a null dereference in the C++). *)

Definition getEffectiveMinFrequency (w : World) (s : Layer) : option R :=
  m ← m_model s;
  let sr := getSampleRate m in
  let fftSize := IZR (getFFTSize w s) in
  let minf := (sr / fftSize)%R in
  Some (if 0 <? m_minFrequency s then
          let minbin :=
            to_int (IZR (m_minFrequency s) * fftSize / sr + 1 / 100)%R in
          let minbin := if minbin <? 1 then 1 else minbin in
          (IZR minbin * sr / fftSize)%R
        else minf).

Definition getEffectiveMaxFrequency (w : World) (s : Layer) : option R :=
  m ← m_model s;
  let sr := getSampleRate m in
  let fftSize := IZR (getFFTSize w s) in
  let maxf := (sr / 2)%R in
  Some (if 0 <? m_maxFrequency s then
          let maxbin :=
            to_int (IZR (m_maxFrequency s) * fftSize / sr + 1 / 10)%R in
          let maxbin :=
            if maxbin >? getFFTSize w s `quot` 2
            then getFFTSize w s `quot` 2 else maxbin in
          (IZR maxbin * sr / fftSize)%R
        else maxf).

Definition getYForBin (w : World) (s : Layer) (v : LayerGeometryProvider)
    (bin : R) : option R :=
  minf ← getEffectiveMinFrequency w s;
  maxf ← getEffectiveMaxFrequency w s;
  m ← m_model s;
  let logarithmic := m_binScale s =? BinScale_Log in
  let sr := getSampleRate m in
  let freq := (bin * sr / IZR (getFFTSize w s))%R in
  Some (v_getYForFrequency v freq minf maxf logarithmic).

Definition getBinForY (w : World) (s : Layer) (v : LayerGeometryProvider)
    (y : R) : option R :=
  m ← m_model s;
  let sr := getSampleRate m in
  minf ← getEffectiveMinFrequency w s;
  maxf ← getEffectiveMaxFrequency w s;
  let logarithmic := m_binScale s =? BinScale_Log in
  let freq := v_getFrequencyForY v y minf maxf logarithmic in
  Some (freq * IZR (getFFTSize w s) / sr)%R.

(** [getYBinRange] and [getXBinRange] return [false] (here the inner
    [None]) or [true] with the two reference arguments set.  In
    [getXBinRange] the frames [f0] and [f1] are 64-bit; the test compares
    them with [int(modelStart)] and [int(modelEnd)], the model's extents
    narrowed to 32 bits. *)
Definition getYBinRange (w : World) (s : Layer) (v : LayerGeometryProvider)
    (y : Z) : option (option (R * R)) :=
  let h := getPaintHeight v in
  if (y <? 0) || (y >=? h) then Some None
  else
    q0 ← getBinForY w s v (IZR y);
    q1 ← getBinForY w s v (IZR (y - 1));
    Some (Some (q0, q1)).

Definition getXBinRange (w : World) (s : Layer) (v : LayerGeometryProvider)
    (x : Z) : option (option (R * R)) :=
  m ← m_model s;
  let modelStart := getStartFrame m in
  let modelEnd := getEndFrame m in
  let f0 := getFrameForX v x - modelStart in
  let f1 := getFrameForX v (x + 1) - modelStart - 1 in
  if (f1 <? int_of_int64 modelStart) || (f0 >? int_of_int64 modelEnd)
  then Some None
  else
    let windowIncrement := getWindowIncrement w s in
    Some (Some ((IZR f0 / IZR windowIncrement)%R,
                (IZR f1 / IZR windowIncrement)%R)).

(** ** Peak-adjusted frequency range of a pixel *)

(** The four reference arguments of [getAdjustedYBinSourceRange]. *)
Record FrequencyRanges := MkRanges {
  freqMin : R;
  freqMax : R;
  adjFreqMin : R;
  adjFreqMax : R
}.

(** One pass through the body of the inner loop, for bin [q] of column
    [s]; the accumulator is the reference arguments and [haveAdj]. *)
Definition adjustedCell (fft : FFTModel) (peaksOnly : bool) (threshold : Q)
    (sr : R) (windowSize q0i q1i : Z) (q s : Z)
    (acc : FrequencyRanges * bool) : FrequencyRanges * bool :=
  let '(r, haveAdj) := acc in
  let binfreq := (sr * IZR q / IZR windowSize)%R in
  let r := if q =? q0i
           then MkRanges binfreq (freqMax r) (adjFreqMin r) (adjFreqMax r)
           else r in
  let r := if q =? q1i
           then MkRanges (freqMin r) binfreq (adjFreqMin r) (adjFreqMax r)
           else r in
  if peaksOnly && negb (be_isLocalPeak (fft_backend fft) s q) then (r, haveAdj)
  else if negb (be_isOverThreshold (fft_backend fft) s q threshold)
  then (r, haveAdj)
  else if s <? be_width (fft_backend fft) - 1 then
    let freq := be_estimateStableFrequency (fft_backend fft) s q binfreq in
    let r := if negb haveAdj || Rltb freq (adjFreqMin r)
             then MkRanges (freqMin r) (freqMax r) freq (adjFreqMax r)
             else r in
    let r := if negb haveAdj || Rltb (adjFreqMax r) freq
             then MkRanges (freqMin r) (freqMax r) (adjFreqMin r) freq
             else r in
    (r, true)
  else (r, haveAdj).

(** [for (q = q0i; q <= q1i; ++q) for (s = s0i; s <= s1i; ++s) ...] *)
Definition adjustedLoops (fft : FFTModel) (peaksOnly : bool) (threshold : Q)
    (sr : R) (windowSize : Z) (s0i s1i q0i q1i : Z)
    (acc : FrequencyRanges * bool) : FrequencyRanges * bool :=
  fold_left
    (fun acc q =>
       fold_left
         (fun acc s =>
            adjustedCell fft peaksOnly threshold sr windowSize q0i q1i q s acc)
         (seqZ s0i (s1i - s0i + 1)) acc)
    (seqZ q0i (q1i - q0i + 1)) acc.

(** The result is the returned [bool], the reference arguments on return
    and the layer ([getFFTModel] may rebuild the model). *)
Definition getAdjustedYBinSourceRange (w : World) (s : Layer)
    (v : LayerGeometryProvider) (x y : Z) (out : FrequencyRanges)
  : option (bool * FrequencyRanges * Layer) :=
  match m_model s with
  | None => Some (false, out, s)
  | Some m =>
    if negb (isOK m) || negb (isReady m) then Some (false, out, s)
    else
      let '(fft, s) := getFFTModel w s in
      match fft with
      | None => Some (false, out, s)
      | Some fft =>
        xr ← getXBinRange w s v x;
        match xr with
        | None => Some (false, out, s)
        | Some (s0, s1) =>
          yr ← getYBinRange w s v y;
          match yr with
          | None => Some (false, out, s)
          | Some (q0, q1) =>
            let s0i := to_int (s0 + 1 / 1000)%R in
            let s1i := to_int s1 in
            let q0i := to_int (q0 + 1 / 1000)%R in
            let q1i := to_int q1 in
            let sr := getSampleRate m in
            let peaksOnly := (m_binDisplay s =? BinDisplay_PeakBins)
                             || (m_binDisplay s =? BinDisplay_PeakFrequencies) in
            let threshold :=
              (m_threshold s * inject_Z (getFFTSize w s) / 2)%Q in
            let '(r, haveAdj) :=
              adjustedLoops fft peaksOnly threshold sr (m_windowSize s)
                            s0i s1i q0i q1i (out, false) in
            let r := if negb haveAdj
                     then MkRanges (freqMin r) (freqMax r) 0%R 0%R else r in
            Some (haveAdj, r, s)
          end
        end
      end
  end.

(** ** The view's frequency axis *)

(** Modelled from the spec: [View::getYForFrequency] and
    [View::getFrequencyForY] are defined in the view, outside the layer.  The
    spec gives the contract: under Linear scale pixel-to-frequency is affine
    between the effective minimum and maximum frequency, under Log scale it
    is affine in [log(frequency)].  The bottom row [y = h] shows the minimum
    and the top row [y = 0] the maximum. *)
Definition View_getYForFrequency (h : Z) (frequency minf maxf : R)
    (logarithmic : bool) : R :=
  if logarithmic then
    (IZR h - IZR h * (ln frequency - ln minf) / (ln maxf - ln minf))%R
  else
    (IZR h - IZR h * (frequency - minf) / (maxf - minf))%R.

Definition View_getFrequencyForY (h : Z) (y minf maxf : R)
    (logarithmic : bool) : R :=
  if logarithmic then
    exp (ln minf + (ln maxf - ln minf) * (IZR h - y) / IZR h)%R
  else
    (minf + (IZR h - y) * (maxf - minf) / IZR h)%R.

Definition View (id h : Z) (frameForX : Z -> Z) : LayerGeometryProvider :=
  MkView id h frameForX (View_getYForFrequency h) (View_getFrequencyForY h).

(** ** The vertical zoom mapper *)

Module SpectrogramRangeMapper.

Record t := Mk { m_dist : R; m_s2 : R }.

(** The constructor; its second argument is ignored. *)
Definition make (sr : R) (fftsize : Z) : t :=
  Mk (sr / 2)%R (sqrt (sqrt 2)).

(** The [while] loop of [getPositionForValue], at most [fuel] times round;
    [None] when the fuel runs out before the loop ends. *)
Fixpoint positionLoop (fuel : nat) (m : t) (value dist : R) (n : Z)
  : option Z :=
  match fuel with
  | O => None
  | S fuel =>
    if Rltb (value + 1 / 100000) dist && Rltb (1 / 10) dist
    then positionLoop fuel m value (dist / m_s2 m)%R (n + 1)
    else Some n
  end.

Definition getPositionForValue (fuel : nat) (m : t) (value : R) : option Z :=
  positionLoop fuel m value (m_dist m) 0.

(** The [while (n < position)] loop of [getValueForPosition], which runs
    [position] times (not at all for a negative position). *)
Fixpoint valueLoop (k : nat) (m : t) (dist : R) : R :=
  match k with
  | O => dist
  | S k => valueLoop k m (dist / m_s2 m)%R
  end.

Definition getValueForPosition (m : t) (position : Z) : R :=
  valueLoop (Z.to_nat position) m (m_dist m).

End SpectrogramRangeMapper.

(** [getVerticalZoomSteps] returns the number of steps and leaves the
    default step in its reference argument. *)
Definition getVerticalZoomSteps (fuel : nat) (w : World) (s : Layer)
    (defaultStep : Z) : option (Z * Z) :=
  match m_model s with
  | None => Some (0, defaultStep)
  | Some m =>
    let sr := getSampleRate m in
    let mapper := SpectrogramRangeMapper.make sr (getFFTSize w s) in
    maxStep ← SpectrogramRangeMapper.getPositionForValue fuel mapper 0%R;
    minStep ← SpectrogramRangeMapper.getPositionForValue fuel mapper (sr / 2)%R;
    let initialMax := m_initialMaxFrequency s in
    let initialMax := if initialMax =? 0 then to_int (sr / 2)%R else initialMax in
    d ← SpectrogramRangeMapper.getPositionForValue fuel mapper (IZR initialMax);
    Some (maxStep - minStep, d - minStep)
  end.

Definition getDisplayExtents (w : World) (s : Layer) : option (R * R) :=
  dmin ← getEffectiveMinFrequency w s;
  dmax ← getEffectiveMaxFrequency w s;
  Some (dmin, dmax).

Definition getCurrentVerticalZoomStep (fuel : nat) (w : World) (s : Layer)
  : option Z :=
  match m_model s with
  | None => Some 0
  | Some m =>
    '(dmin, dmax) ← getDisplayExtents w s;
    let mapper := SpectrogramRangeMapper.make (getSampleRate m) (getFFTSize w s) in
    SpectrogramRangeMapper.getPositionForValue fuel mapper (dmax - dmin)%R
  end.

(** The [if (m_binScale == BinScale::Log) ... else ...] block of
    [setVerticalZoomStep]: the pair [(newmin, newmax)] it leaves. *)
Definition zoomExtents (logarithmic : bool) (dmin dmax newdist : R) : R * R :=
  if logarithmic then
    let newmax :=
      ((newdist + sqrt (newdist * newdist + 4 * dmin * dmax)) / 2)%R in
    let newmin := (newmax - newdist)%R in
    (newmin, newmax)
  else
    let dmid := ((dmax + dmin) / 2)%R in
    let newmin := (dmid - newdist / 2)%R in
    let newmax := (dmid + newdist / 2)%R in
    (newmin, newmax).

(** The two clamping tests that follow the block: a [newmin] below [mmin]
    is moved up to it, [newmax] with it, and a [newmax] above [mmax] is cut
    down to it. *)
Definition clampExtents (mmin mmax : R) (e : R * R) : R * R :=
  let '(newmin, newmax) := e in
  let '(newmin, newmax) :=
    if Rltb newmin mmin then (mmin, (newmax + (mmin - newmin))%R)
    else (newmin, newmax) in
  let newmax := if Rltb mmax newmax then mmax else newmax in
  (newmin, newmax).

Definition setVerticalZoomStep (w : World) (step : Z) (s : Layer) : Layer :=
  match m_model s with
  | None => s
  | Some m =>
    let dmin := IZR (m_minFrequency s) in
    let dmax := IZR (m_maxFrequency s) in
    let sr := getSampleRate m in
    let mapper := SpectrogramRangeMapper.make sr (getFFTSize w s) in
    let newdist := SpectrogramRangeMapper.getValueForPosition mapper step in
    let e := zoomExtents (m_binScale s =? BinScale_Log) dmin dmax newdist in
    let '(newmin, newmax) := clampExtents 0%R (sr / 2)%R e in
    let s := setMinFrequency (int_of_int64 (lrint newmin)) s in
    setMaxFrequency (int_of_int64 (lrint newmax)) s
  end.

(** ** Session attributes *)

Definition convertToColourScale (value : Z) : ColourScaleType :=
  match value with
  | 0 => CS_Linear
  | 1 => CS_Meter
  | 2 => CS_Log
  | 3 => CS_Log
  | 4 => CS_Phase
  | _ => CS_Linear
  end.

Definition convertFromColourScale (scale : ColourScaleType) : Z :=
  match scale with
  | CS_Linear => 0
  | CS_Meter => 1
  | CS_Log => 3
  | CS_Phase => 4
  | CS_PlusMinusOne | CS_Absolute => 0
  end.

Definition convertToColumnNorm (value : Z) : ColumnNormalization * bool :=
  match value with
  | 1 => (CN_Max1, false)
  | 2 => (CN_None, true)
  | 3 => (CN_Hybrid, false)
  | _ => (CN_None, false)
  end.

Definition convertFromColumnNorm (norm : ColumnNormalization) (visible : bool)
  : Z :=
  if visible then 2
  else match norm with
       | CN_None => 0
       | CN_Max1 => 1
       | CN_Hybrid => 3
       | CN_Sum1 => 0
       end.

(** [QXmlAttributes]: the attributes of an element in document order;
    [value] answers the empty string for a name that is not there. *)
Definition QXmlAttributes := list (string * string).

Fixpoint attr_value (attributes : QXmlAttributes) (qName : string) : string :=
  match attributes with
  | [] => EmptyString
  | (name, v) :: rest =>
    if String.eqb name qName then v else attr_value rest qName
  end.

(** [QString::trimmed]. *)
Definition isSpace (c : ascii) : bool :=
  let n := nat_of_ascii c in
  Nat.eqb n 32 || (Nat.leb 9 n && Nat.leb n 13).

Fixpoint trimLeft (s : string) : string :=
  match s with
  | EmptyString => EmptyString
  | String c rest => if isSpace c then trimLeft rest else s
  end.

Fixpoint trimRight (s : string) : string :=
  match s with
  | EmptyString => EmptyString
  | String c rest =>
    match trimRight rest with
    | EmptyString => if isSpace c then EmptyString else String c EmptyString
    | rest' => String c rest'
    end
  end.

Definition trimmed (s : string) : string := trimRight (trimLeft s).

(** The value of an [unsigned int] stored into an [int]. *)
Definition int_of_uint (u : Z) : Z :=
  (u + 2147483648) mod 4294967296 - 2147483648.

Definition with_ok {A} (parsed : option A) (f : A -> Layer -> Layer)
    (s : Layer) : Layer :=
  match parsed with
  | Some a => f a s
  | None => s
  end.

(** [setProperties] is modelled in three blocks, in the order of the C++
    text: the attributes up to [binDisplay]; the normalization attributes,
    new style and old, up to [normalizeVisibleArea], which also yields
    [haveNewStyleNormalization]; the correction of the gain. *)
Definition setProperties_parameters (w : World) (attributes : QXmlAttributes)
    (s : Layer) : Layer :=
  let value := attr_value attributes in
  let s := with_ok (toInt w (value "channel"%string)) setChannel s in
  let s := with_ok (toUInt w (value "windowSize"%string))
                   (fun u => setWindowSize (int_of_uint u)) s in
  let s :=
    match toUInt w (value "windowHopLevel"%string) with
    | Some u => setWindowHopLevel (int_of_uint u) s
    | None =>
      match int_of_uint <$> toUInt w (value "windowOverlap"%string) with
      | Some 0 => setWindowHopLevel 0 s
      | Some 25 => setWindowHopLevel 1 s
      | Some 50 => setWindowHopLevel 2 s
      | Some 75 => setWindowHopLevel 3 s
      | Some 90 => setWindowHopLevel 4 s
      | _ => s
      end
    end in
  let s := with_ok (toFloat w (value "gain"%string)) setGain s in
  let s := with_ok (toFloat w (value "threshold"%string)) setThreshold s in
  let s := with_ok (toUInt w (value "minFrequency"%string))
                   (fun u => setMinFrequency (int_of_uint u)) s in
  let s := with_ok (toUInt w (value "maxFrequency"%string))
                   (fun u => setMaxFrequency (int_of_uint u)) s in
  let s := with_ok (toInt w (value "colourScale"%string))
                   (fun i => setColourScale (convertToColourScale i)) s in
  let s := with_ok (toInt w (value "colourScheme"%string)) setColourMap s in
  let s := with_ok (toInt w (value "colourRotation"%string))
                   setColourRotation s in
  let s := with_ok (toInt w (value "frequencyScale"%string)) setBinScale s in
  with_ok (toInt w (value "binDisplay"%string)) setBinDisplay s.

Definition setProperties_normalization (attributes : QXmlAttributes)
    (s : Layer) : bool * Layer :=
  let value := attr_value attributes in
  let columnNormalization := value "columnNormalization"%string in
  let haveNewStyleNormalization :=
    negb (String.eqb columnNormalization EmptyString) in
  let s :=
    if haveNewStyleNormalization then
      if String.eqb columnNormalization "peak" then setNormalization CN_Max1 s
      else if String.eqb columnNormalization "hybrid"
           then setNormalization CN_Hybrid s
      else if String.eqb columnNormalization "none"
           then setNormalization CN_None s
      else s
    else s in
  let s :=
    if negb haveNewStyleNormalization then
      let normalizeColumns :=
        String.eqb (trimmed (value "normalizeColumns"%string)) "true" in
      let s := if normalizeColumns then setNormalization CN_Max1 s else s in
      let normalizeHybrid :=
        String.eqb (trimmed (value "normalizeHybrid"%string)) "true" in
      if normalizeHybrid then setNormalization CN_Hybrid s else s
    else s in
  let normalizeVisibleArea :=
    String.eqb (trimmed (value "normalizeVisibleArea"%string)) "true" in
  (haveNewStyleNormalization, setNormalizeVisibleArea normalizeVisibleArea s).

Definition setProperties (w : World) (attributes : QXmlAttributes)
    (s : Layer) : Layer :=
  let s := setProperties_parameters w attributes s in
  let '(haveNewStyleNormalization, s) :=
    setProperties_normalization attributes s in
  if negb haveNewStyleNormalization
     && eqb_ColumnNormalization (m_normalization s) CN_Hybrid
  then setGain (m_gain s / inject_Z (getFFTSize w s `quot` 2))%Q s
  else s.

(** ** The setters of the display parameters, as one type *)

Inductive DisplaySetter :=
| SetGain (gain : Q)
| SetThreshold (threshold : Q)
| SetColourScale (colourScale : ColourScaleType)
| SetColourMap (map : Z)
| SetColourRotation (r : Z)
| SetBinScale (binScale : BinScale)
| SetBinDisplay (binDisplay : BinDisplay)
| SetNormalization (n : ColumnNormalization)
| SetNormalizeVisibleArea (n : bool)
| SetMinFrequency (mf : Z)
| SetMaxFrequency (mf : Z).

Definition callSetter (c : DisplaySetter) : Layer -> Layer :=
  match c with
  | SetGain g => setGain g
  | SetThreshold t => setThreshold t
  | SetColourScale c => setColourScale c
  | SetColourMap m => setColourMap m
  | SetColourRotation r => setColourRotation r
  | SetBinScale b => setBinScale b
  | SetBinDisplay b => setBinDisplay b
  | SetNormalization n => setNormalization n
  | SetNormalizeVisibleArea n => setNormalizeVisibleArea n
  | SetMinFrequency mf => setMinFrequency mf
  | SetMaxFrequency mf => setMaxFrequency mf
  end.

(** The argument differs from the value the layer holds. *)
Definition differs (c : DisplaySetter) (s : Layer) : bool :=
  match c with
  | SetGain g => negb (Qeq_bool (m_gain s) g)
  | SetThreshold t => negb (Qeq_bool (m_threshold s) t)
  | SetColourScale c => negb (eqb_ColourScaleType (m_colourScale s) c)
  | SetColourMap m => negb (m_colourMap s =? m)
  | SetColourRotation r => negb (m_colourRotation s =? r)
  | SetBinScale b => negb (m_binScale s =? b)
  | SetBinDisplay b => negb (m_binDisplay s =? b)
  | SetNormalization n => negb (eqb_ColumnNormalization (m_normalization s) n)
  | SetNormalizeVisibleArea n => negb (Bool.eqb (m_normalizeVisibleArea s) n)
  | SetMinFrequency mf => negb (m_minFrequency s =? mf)
  | SetMaxFrequency mf => negb (m_maxFrequency s =? mf)
  end.

Definition isSetBinDisplay (c : DisplaySetter) : bool :=
  match c with
  | SetBinDisplay _ => true
  | _ => false
  end.

(** What a setter of a display parameter leaves alone. *)
Definition sameTransform (s s' : Layer) : Prop :=
  m_model s' = m_model s /\ m_windowSize s' = m_windowSize s /\
  m_windowHopLevel s' = m_windowHopLevel s /\ m_fftModel s' = m_fftModel s /\
  m_peakCache s' = m_peakCache s /\ allocated s' = allocated s.

(** ** Vocabulary for the zoom mapper *)

(** The ratio between the ranges of two successive zoom steps, [m_s2]. *)
Definition s2 : R := sqrt (sqrt 2).

(** The test of the [while] loop of [getPositionForValue]. *)
Definition goes_on (value dist : R) : Prop :=
  (value + 1 / 100000 < dist /\ 1 / 10 < dist)%R.

(** ** A world and some layers to run the model on *)

(** Decimal readers, standing for [QString::toInt], [toUInt] and
    [toFloat] on plain decimal text. *)
Definition digitOf (c : ascii) : option Z :=
  let n := Z.of_nat (nat_of_ascii c) in
  if (48 <=? n) && (n <=? 57) then Some (n - 48) else None.

Fixpoint readDigits (s : string) (acc : Z) : option Z :=
  match s with
  | EmptyString => Some acc
  | String c rest => d ← digitOf c; readDigits rest (10 * acc + d)
  end.

Definition decimalUInt (s : string) : option Z :=
  match s with
  | EmptyString => None
  | _ => n ← readDigits s 0; if n <? 4294967296 then Some n else None
  end.

Definition decimalInt (s : string) : option Z :=
  match s with
  | EmptyString => None
  | String "-" (String c rest) =>
    n ← readDigits (String c rest) 0;
    if n <=? 2147483648 then Some (- n) else None
  | _ => n ← readDigits s 0; if n <? 2147483648 then Some n else None
  end.

Fixpoint readFraction (s : string) (num : Z) (den : positive) : option Q :=
  match s with
  | EmptyString => Some (num # den)
  | String c rest => d ← digitOf c; readFraction rest (10 * num + d) (10 * den)
  end.

Fixpoint readFloat (s : string) (acc : Z) : option Q :=
  match s with
  | EmptyString => Some (acc # 1)
  | String "." rest => readFraction rest acc 1
  | String c rest => d ← digitOf c; readFloat rest (10 * acc + d)
  end.

Definition decimalFloat (s : string) : option Q :=
  match s with
  | EmptyString => None
  | _ => readFloat s 0
  end.

Definition exBackend : FFTBackend :=
  MkBackend true 40 "ok" 100
            (fun s q => q =? 3) (fun s q t => true) (fun s q freq => freq).

Definition exFailingBackend : FFTBackend :=
  MkBackend false 0 "out of memory" 0
            (fun s q => false) (fun s q t => false) (fun s q freq => freq).

Definition exWorld (smoothing : SpectrogramSmoothing) : World :=
  MkWorld smoothing 3 3 (fun name deflt => deflt) 1 2
          decimalInt decimalUInt decimalFloat (fun k => exBackend)
          specWindowIncrement.

Definition exFailingWorld : World :=
  MkWorld NoSpectrogramSmoothing 3 3 (fun name deflt => deflt) 1 2
          decimalInt decimalUInt decimalFloat (fun k => exFailingBackend)
          specWindowIncrement.

Definition exModel (sr : R) : DenseTimeValueModel :=
  MkModel sr true true 0 1000000.

Definition exView : LayerGeometryProvider := View 1 500 (fun x => 100 * x).

(** A layer just constructed and given a model. *)
Definition exFresh (w : World) (sr : R) : Layer :=
  setModel (Some (exModel sr)) false (SpectrogramLayer_new w OtherConfiguration).

(** The same after one view has asked for its renderer: the FFT model, the
    peak cache and one renderer exist. *)
Definition exPainted (w : World) (sr : R) : Layer :=
  snd (getRenderer w exView (exFresh w sr)).

Definition exFFT : FFTModel := MkFFT 0 0 3 1024 256 4096 exBackend.

(** The layer of the spec's linear-scale example: minimum frequency 0,
    maximum frequency 8000, sample rate 16000, FFT size 1024. *)
Definition exLinearWorld : World := exWorld NoSpectrogramSmoothing.

Definition exLinear : Layer :=
  setMinFrequency 0 (exFresh exLinearWorld 16000).

(** A layer in the melodic-range configuration: log scale, 40 to 1500 Hz. *)
Definition exMelodic : Layer :=
  setModel (Some (exModel 44100)) false
           (SpectrogramLayer_new exLinearWorld MelodicRange).

(** A low sample rate under a long zero-padded window: sample rate 8000,
    window size 32768, FFT size 131072. *)
Definition exLongWindowWorld : World := exWorld SpectrogramZeroPadded.

Definition exLongWindow : Layer :=
  setWindowSize 32768 (exFresh exLongWindowWorld 8000).

(** ** The bin block of a pixel *)

(** The bins [(q, s)] of the block, in the order the two loops of
    [getAdjustedYBinSourceRange] visit them. *)
Definition blockCells (s0i s1i q0i q1i : Z) : list (Z * Z) :=
  q ← seqZ q0i (q1i - q0i + 1);
  s ← seqZ s0i (s1i - s0i + 1);
  [(q, s)].

(** A bin passes: it is a local peak (when only peaks count), it is over
    the threshold, and the next time column is available. *)
Definition passes (fft : FFTModel) (peaksOnly : bool) (threshold : Q)
    (cell : Z * Z) : bool :=
  let '(q, s) := cell in
  (negb peaksOnly || be_isLocalPeak (fft_backend fft) s q)
  && be_isOverThreshold (fft_backend fft) s q threshold
  && (s <? be_width (fft_backend fft) - 1).

(** What [estimateStableFrequency] answers for a bin, called as the loop
    calls it, with the nominal bin frequency in its reference argument. *)
Definition estimate (fft : FFTModel) (sr : R) (windowSize : Z)
    (cell : Z * Z) : R :=
  let '(q, s) := cell in
  be_estimateStableFrequency (fft_backend fft) s q
                             (sr * IZR q / IZR windowSize)%R.

Definition isMinimumOf (x : R) (l : list R) : Prop :=
  In x l /\ forall y, In y l -> (x <= y)%R.

Definition isMaximumOf (x : R) (l : list R) : Prop :=
  In x l /\ forall y, In y l -> (y <= x)%R.

(** The estimates of the passing bins among [cells], in loop order. *)
Definition estimates (fft : FFTModel) (peaksOnly : bool) (threshold : Q)
    (sr : R) (windowSize : Z) (cells : list (Z * Z)) : list R :=
  map (estimate fft sr windowSize)
      (List.filter (passes fft peaksOnly threshold) cells).

(** What holds of the loop's accumulator (the reference arguments and
    [haveAdj]) once the bins [seen] have been visited. *)
Definition tracked (fft : FFTModel) (peaksOnly : bool) (threshold : Q)
    (sr : R) (windowSize : Z) (seen : list (Z * Z))
    (acc : FrequencyRanges * bool) : Prop :=
  let est := estimates fft peaksOnly threshold sr windowSize seen in
  (snd acc = false /\ est = []) \/
  (snd acc = true /\
   isMinimumOf (adjFreqMin (fst acc)) est /\
   isMaximumOf (adjFreqMax (fst acc)) est).

(** A view whose axis maps are the identity up to a flip, and a backend in
    which the bins 2 and 3 of every column are peaks over the threshold. *)
Definition exFlatView : LayerGeometryProvider :=
  MkView 2 10 (fun x => 256 * x)
         (fun frequency minf maxf logarithmic => (10 - frequency)%R)
         (fun y minf maxf logarithmic => (10 - y)%R).

Definition exPeakBackend : FFTBackend :=
  MkBackend true 100 EmptyString 100
            (fun s q => (q =? 2) || (q =? 3)) (fun s q t => true)
            (fun s q freq => (freq + IZR s)%R).

Definition exPeakWorld : World :=
  MkWorld NoSpectrogramSmoothing 3 3 (fun name deflt => deflt) 1 2
          decimalInt decimalUInt decimalFloat (fun k => exPeakBackend)
          specWindowIncrement.

Definition exPeaks : Layer :=
  setBinDisplay BinDisplay_PeakFrequencies (exFresh exPeakWorld 1024).

Definition exPeakFFT : FFTModel := MkFFT 0 0 3 1024 256 1024 exPeakBackend.

(** The same layer on a model that ends at frame [2^31], which is not an
    [int]. *)
Definition exLongModel : DenseTimeValueModel :=
  MkModel 1024 true true 0 2147483648.

Definition exLongPeaks : Layer :=
  setBinDisplay BinDisplay_PeakFrequencies
    (setModel (Some exLongModel) false
       (SpectrogramLayer_new exPeakWorld OtherConfiguration)).



(** The spec's linear example with the minimum frequency at 30 Hz, between
    bin 1 (15.625 Hz) and bin 2 (31.25 Hz). *)
Definition exLowCut : Layer := setMinFrequency 30 exLinear.

(** The layer as constructed, on a model of sample rate 44100: linear
    scale, 10 to 8000 Hz. *)
Definition exDefault : Layer := exFresh exLinearWorld 44100.

(** A linear-scale layer whose extents have an odd sum: 3001 to 4000 Hz at
    sample rate 16000. *)
Definition exOddRange : Layer :=
  setMinFrequency 3001 (setMaxFrequency 4000 (exFresh exLinearWorld 16000)).


(** The spec's legacy session: hybrid normalization written the old way. *)
Definition exLegacyAttributes : QXmlAttributes :=
  [("gain", "1.0"); ("windowSize", "2048"); ("normalizeHybrid", "true")]%string.

(** The same layer written the new way. *)
Definition exNewAttributes : QXmlAttributes :=
  [("gain", "1.0"); ("windowSize", "2048");
   ("columnNormalization", "hybrid")]%string.

(** The gain the layer holds once [setProperties] has read the gain
    attribute: the attribute when it is a number, else the gain before. *)
Definition storedGain (w : World) (attributes : QXmlAttributes) (s : Layer)
  : Q :=
  match toFloat w (attr_value attributes "gain") with
  | Some g => g
  | None => m_gain s
  end.

(** * Properties *)

(** ** Helper facts on the setters *)

Lemma getFFTModel_current (w : World) (s : Layer) (f : FFTModel) :
  getFFTModel w s = (Some f, s) <->
  m_model s <> None /\ m_fftModel s = Some f /\
  getHeight f = getFFTSize w s `quot` 2 + 1 /\
  fft_windowIncrement f = getWindowIncrement w s.
Proof.
  unfold getFFTModel. split.
  - destruct (m_model s) eqn:Em; [|discriminate].
    destruct (m_fftModel s) as [g|] eqn:Ef.
    + destruct (_ && _) eqn:Et.
      * intros [= ->]. apply andb_true_iff in Et as [H1 H2].
        apply Z.eqb_eq in H1, H2. auto.
      * destruct (negb _); intros [= _ Hs]; apply (f_equal allocated) in Hs;
          simpl in Hs; lia.
    + destruct (negb _); [discriminate|].
      intros [= _ Hs]. apply (f_equal allocated) in Hs. simpl in Hs. lia.
  - intros (Hm & Hf & Hh & Hi).
    destruct (m_model s); [|congruence]. rewrite Hf.
    rewrite Hh, Hi, !Z.eqb_refl. reflexivity.
Qed.

Lemma callSetter_sameTransform (c : DisplaySetter) (s : Layer) :
  sameTransform s (callSetter c s).
Proof.
  unfold sameTransform.
  destruct c; simpl;
    unfold setGain, setThreshold, setColourScale, setColourMap,
      setColourRotation, setBinScale, setBinDisplay, setNormalization,
      setNormalizeVisibleArea, setMinFrequency, setMaxFrequency;
    repeat match goal with |- context [if ?b then _ else _] => destruct b end;
    simpl; auto 10.
Qed.

Lemma callSetter_binDisplay (c : DisplaySetter) (s : Layer) :
  isSetBinDisplay c = false -> m_binDisplay (callSetter c s) = m_binDisplay s.
Proof.
  destruct c; simpl; try discriminate; intros _;
    unfold setGain, setThreshold, setColourScale, setColourMap,
      setColourRotation, setBinScale, setNormalization,
      setNormalizeVisibleArea, setMinFrequency, setMaxFrequency;
    repeat match goal with |- context [if ?b then _ else _] => destruct b end;
    reflexivity.
Qed.

Lemma callSetter_renderers (c : DisplaySetter) (s : Layer) :
  differs c s = true -> m_renderers (callSetter c s) = ∅.
Proof.
  destruct c; simpl; intros H; apply negb_true_iff in H;
    unfold setGain, setThreshold, setColourScale, setColourMap,
      setColourRotation, setBinScale, setBinDisplay, setNormalization,
      setNormalizeVisibleArea, setMinFrequency, setMaxFrequency;
    try (rewrite H; reflexivity).
  (* setColourRotation clears the renderers whatever the value *)
  repeat match goal with |- context [if ?b then _ else _] => destruct b end;
    reflexivity.
Qed.

(** C1 (as amended).  A setter of a display parameter, called with a value
    that differs from the current one, empties the renderer map and leaves
    the FFT model member alone.  If [getFFTModel] returned the existing
    model before the call, it returns the same object, without rebuilding,
    after the call of every setter but [setBinDisplay]; after
    [setBinDisplay] it does so when the FFT oversampling is what it was. *)
Theorem display_setter_keeps_fft_model
    (w : World) (s : Layer) (c : DisplaySetter) (f : FFTModel) :
  differs c s = true ->
  getFFTModel w s = (Some f, s) ->
  let s' := callSetter c s in
  m_renderers s' = ∅ /\
  m_fftModel s' = Some f /\
  (isSetBinDisplay c = false -> getFFTModel w s' = (Some f, s')) /\
  (getFFTOversampling w s' = getFFTOversampling w s ->
   getFFTModel w s' = (Some f, s')).
Proof.
  intros Hd Hg s'.
  apply getFFTModel_current in Hg as (Hm & Hf & Hh & Hi).
  destruct (callSetter_sameTransform c s) as (Em & Ews & Ehop & Efft & _).
  fold s' in Em, Ews, Ehop, Efft.
  assert (Hover : getFFTOversampling w s' = getFFTOversampling w s ->
                  getFFTModel w s' = (Some f, s')).
  { intros Ho. apply getFFTModel_current.
    unfold getFFTSize, getWindowIncrement in *.
    rewrite Em, Efft, Ews, Ehop, Ho. auto. }
  split; [apply callSetter_renderers; exact Hd|].
  split; [congruence|].
  split; [|exact Hover].
  intros Hc. apply Hover. unfold getFFTOversampling.
  subst s'. rewrite (callSetter_binDisplay c s Hc). reflexivity.
Qed.

Lemma display_setter_keeps_fft_model_witness :
  let w := exWorld SpectrogramZeroPadded in
  let s := exPainted w 44100 in
  let s' := callSetter (SetGain (1 # 2)) s in
  m_renderers s' = ∅ /\ m_fftModel s' = Some exFFT /\
  (isSetBinDisplay (SetGain (1 # 2)) = false ->
   getFFTModel w s' = (Some exFFT, s')) /\
  (getFFTOversampling w s' = getFFTOversampling w s ->
   getFFTModel w s' = (Some exFFT, s')).
Proof.
  apply (display_setter_keeps_fft_model
           (exWorld SpectrogramZeroPadded)
           (exPainted (exWorld SpectrogramZeroPadded) 44100)
           (SetGain (1 # 2)) exFFT); vm_compute; reflexivity.
Defined.

(** C1, the claim as written fails for [setBinDisplay]: with zero-padded
    smoothing, leaving [AllBins] changes the FFT size from four window
    sizes to one, and the next [getFFTModel] builds a new model. *)
Lemma setBinDisplay_rebuilds_fft_model :
  let w := exWorld SpectrogramZeroPadded in
  let s := exPainted w 44100 in
  let s' := setBinDisplay BinDisplay_PeakBins s in
  differs (SetBinDisplay BinDisplay_PeakBins) s = true /\
  getFFTModel w s = (Some exFFT, s) /\
  m_renderers s <> ∅ /\
  fst (getFFTModel w s') = Some (MkFFT 1 0 3 1024 256 1024 exBackend) /\
  fst (getFFTModel w s') <> Some exFFT /\
  allocated (snd (getFFTModel w s')) = S (allocated s').
Proof.
  intros w s s'; subst w s s'.
  repeat apply conj; vm_compute; first [reflexivity | discriminate].
Qed.

(** ** Window size *)

(** C7 (as amended).  [setWindowSize] does not validate its argument.  Any
    value other than the current window size, zero included, is stored; the
    renderers are cleared and the FFT model and peak cache discarded, so the
    FFT size follows the new window size. *)
Theorem setWindowSize_stores_any_value (w : World) (s : Layer) (ws : Z) :
  ws <> m_windowSize s ->
  let s' := setWindowSize ws s in
  m_windowSize s' = ws /\
  getFFTSize w s' = ws * getFFTOversampling w s /\
  m_fftModel s' = None /\ m_peakCache s' = None /\ m_renderers s' = ∅.
Proof.
  intros Hne s'. subst s'. unfold setWindowSize.
  destruct (Z.eqb_spec (m_windowSize s) ws) as [E|_]; [congruence|].
  repeat apply conj; reflexivity.
Qed.

Lemma setWindowSize_stores_any_value_witness :
  let w := exWorld SpectrogramZeroPadded in
  let s' := setWindowSize 0 (exPainted w 44100) in
  m_windowSize s' = 0 /\
  getFFTSize w s' = 0 * getFFTOversampling w (exPainted w 44100) /\
  m_fftModel s' = None /\ m_peakCache s' = None /\ m_renderers s' = ∅.
Proof.
  apply (setWindowSize_stores_any_value
           (exWorld SpectrogramZeroPadded)
           (exPainted (exWorld SpectrogramZeroPadded) 44100) 0).
  vm_compute. discriminate.
Defined.

(** C7, the claim as written fails: a layer with window size 1024, an FFT
    model and a renderer is left by [setWindowSize 0] with window size 0,
    FFT size 0 and neither FFT model nor renderer. *)
Lemma setWindowSize_zero_not_rejected :
  let w := exWorld SpectrogramZeroPadded in
  let s := exPainted w 44100 in
  let s' := setWindowSize 0 s in
  (m_windowSize s = 1024 /\ m_windowSize s' = 0) /\
  (getFFTSize w s = 4096 /\ getFFTSize w s' = 0) /\
  (m_fftModel s = Some exFFT /\ m_fftModel s' = None) /\
  s' <> s.
Proof.
  intros w s s'; subst w s s'.
  repeat apply conj; try (vm_compute; reflexivity).
  intros E. apply (f_equal m_windowSize) in E. vm_compute in E. discriminate.
Qed.

(** ** Completion and error without an FFT model *)

Lemma SpectrogramLayer_new_no_fft (w : World) (config : Configuration) :
  m_fftModel (SpectrogramLayer_new w config) = None.
Proof.
  unfold SpectrogramLayer_new.
  destruct config; simpl;
    unfold setWindowType, setColourMap;
    repeat match goal with |- context [if ?b then _ else _] => destruct b end;
    reflexivity.
Qed.

Lemma invalidateFFTModel_no_fft (s : Layer) :
  m_fftModel (invalidateFFTModel s) = None.
Proof. reflexivity. Qed.

Lemma getFFTModel_failed_no_fft (w : World) (s : Layer) :
  m_model s <> None ->
  fst (getFFTModel w s) = None ->
  m_fftModel (snd (getFFTModel w s)) = None.
Proof.
  unfold getFFTModel. intros Hm.
  destruct (m_model s); [|congruence].
  destruct (m_fftModel s) as [f|] eqn:Ef.
  - destruct (_ && _); simpl.
    + rewrite Ef. discriminate.
    + destruct (negb _); simpl; [reflexivity|discriminate].
  - destruct (negb _); simpl; [reflexivity|discriminate].
Qed.

(** C10.  A layer without an FFT model reports completion 100 and the empty
    error string, for every view. *)
Theorem no_fft_model_reports_complete (s : Layer) (v : LayerGeometryProvider) :
  m_fftModel s = None ->
  getCompletion s v = 100 /\ getError s v = EmptyString.
Proof.
  intros H. unfold getCompletion, getError. rewrite H. split; reflexivity.
Qed.

Lemma no_fft_model_reports_complete_witness :
  let s := snd (getFFTModel exFailingWorld
                  (exFresh exFailingWorld 44100)) in
  getCompletion s exView = 100 /\ getError s exView = EmptyString.
Proof.
  apply (no_fft_model_reports_complete
           (snd (getFFTModel exFailingWorld (exFresh exFailingWorld 44100)))
           exView).
  vm_compute. reflexivity.
Defined.

(** ** Effective frequency extents *)

Lemma to_int_nonneg (x : R) : (0 <= x)%R -> to_int x = Zfloor x.
Proof. intros H. unfold to_int. destruct (Rle_dec 0 x); [reflexivity|lra]. Qed.

Lemma to_int_between (x : R) (z : Z) :
  0 <= z -> (IZR z <= x < IZR z + 1)%R -> to_int x = z.
Proof.
  intros Hz Hx. rewrite to_int_nonneg.
  - apply Zfloor_eq. exact Hx.
  - apply IZR_le in Hz. lra.
Qed.

Lemma Zfloor_nonneg (x : R) : (0 <= x)%R -> 0 <= Zfloor x.
Proof. intros H. apply Zfloor_lub. exact H. Qed.

Lemma quot2_nonneg (z : Z) : 0 < z -> 0 <= z `quot` 2.
Proof. intros H. apply Z.quot_pos; lia. Qed.

(** C3 (as amended).  With a model of positive sample rate and a positive
    FFT size, the effective minimum frequency is [minbin * sr / fftSize]
    for an integer bin [minbin >= 1]: bin 0 is never the minimum, and a
    minimum frequency of 0 gives bin 1.  A positive minimum frequency gives
    the bin found by adding 0.01 to its bin position
    [minFrequency * fftSize / sr] and dropping the fraction, or bin 1 when
    that is bin 0.  The effective maximum frequency is [sr / 2] when the
    maximum frequency is 0, and otherwise [maxbin * sr / fftSize] for the
    bin found by adding 0.1 to the bin position of the maximum frequency
    and dropping the fraction, or [fftSize / 2] when that is above it.
    [getYForBin] places bin [b] at the row the view gives to the frequency
    [b * sr / fftSize]. *)
Theorem effective_frequencies_are_bin_boundaries
    (w : World) (s : Layer) (m : DenseTimeValueModel) :
  m_model s = Some m ->
  (0 < getSampleRate m)%R ->
  0 < getFFTSize w s ->
  let sr := getSampleRate m in
  let fftSize := getFFTSize w s in
  exists (minbin : Z) (fmin fmax : R),
    getEffectiveMinFrequency w s = Some fmin /\
    fmin = (IZR minbin * sr / IZR fftSize)%R /\
    1 <= minbin /\
    (m_minFrequency s <= 0 -> minbin = 1) /\
    (0 < m_minFrequency s ->
     minbin = Z.max 1 (Zfloor (IZR (m_minFrequency s) * IZR fftSize / sr
                               + 1 / 100)%R)) /\
    getEffectiveMaxFrequency w s = Some fmax /\
    (m_maxFrequency s <= 0 -> fmax = (sr / 2)%R) /\
    (0 < m_maxFrequency s ->
     exists maxbin : Z,
       fmax = (IZR maxbin * sr / IZR fftSize)%R /\
       0 <= maxbin <= fftSize `quot` 2 /\
       maxbin = Z.min (fftSize `quot` 2)
                      (Zfloor (IZR (m_maxFrequency s) * IZR fftSize / sr
                               + 1 / 10)%R)) /\
    (forall (v : LayerGeometryProvider) (bin : R),
       getYForBin w s v bin
       = Some (v_getYForFrequency v (bin * sr / IZR fftSize)%R fmin fmax
                                  (m_binScale s =? BinScale_Log))).
Proof.
  intros Hm Hsr Hfft sr fftSize.
  assert (Hfr : (0 < IZR fftSize)%R) by (apply IZR_lt; exact Hfft).
  unfold getYForBin, getEffectiveMinFrequency, getEffectiveMaxFrequency.
  rewrite Hm. cbn [mbind option_bind]. fold sr fftSize.
  (* the bin position of a positive frequency is not negative *)
  assert (Hpos : forall (f : Z) (e : R), 0 < f -> (0 < e)%R ->
            (0 <= IZR f * IZR fftSize / sr + e)%R).
  { intros f e Hf He. apply IZR_lt in Hf.
    assert (0 < IZR f * IZR fftSize / sr)%R; [|lra].
    apply Rdiv_lt_0_compat; [apply Rmult_lt_0_compat|]; assumption. }
  pose proof (quot2_nonneg fftSize Hfft) as Hq.
  destruct (Z.ltb_spec 0 (m_minFrequency s)) as [Hmin|Hmin];
    destruct (Z.ltb_spec 0 (m_maxFrequency s)) as [Hmax|Hmax].
  - set (a := (IZR (m_minFrequency s) * IZR fftSize / sr + 1 / 100)%R).
    set (b := (IZR (m_maxFrequency s) * IZR fftSize / sr + 1 / 10)%R).
    assert (Ha : (0 <= a)%R) by (apply Hpos; [assumption|lra]).
    assert (Hb : (0 <= b)%R) by (apply Hpos; [assumption|lra]).
    rewrite (to_int_nonneg a Ha), (to_int_nonneg b Hb).
    pose proof (Zfloor_nonneg b Hb) as Hfb.
    exists (Z.max 1 (Zfloor a)). eexists. eexists.
    split; [reflexivity|].
    split; [destruct (Z.ltb_spec (Zfloor a) 1);
            [rewrite Z.max_l by lia|rewrite Z.max_r by lia]; reflexivity|].
    split; [lia|]. split; [lia|]. split; [reflexivity|].
    split; [reflexivity|]. split; [lia|]. split; [|reflexivity].
    intros _. exists (Z.min (fftSize `quot` 2) (Zfloor b)).
    split; [|split; [lia|reflexivity]].
    destruct (Z.gtb_spec (Zfloor b) (fftSize `quot` 2));
      [rewrite Z.min_l by lia|rewrite Z.min_r by lia]; reflexivity.
  - set (a := (IZR (m_minFrequency s) * IZR fftSize / sr + 1 / 100)%R).
    assert (Ha : (0 <= a)%R) by (apply Hpos; [assumption|lra]).
    rewrite (to_int_nonneg a Ha).
    exists (Z.max 1 (Zfloor a)). eexists. eexists.
    split; [reflexivity|].
    split; [destruct (Z.ltb_spec (Zfloor a) 1);
            [rewrite Z.max_l by lia|rewrite Z.max_r by lia]; reflexivity|].
    split; [lia|]. split; [lia|]. split; [reflexivity|].
    split; [reflexivity|]. split; [reflexivity|]. split; [lia|reflexivity].
  - set (b := (IZR (m_maxFrequency s) * IZR fftSize / sr + 1 / 10)%R).
    assert (Hb : (0 <= b)%R) by (apply Hpos; [assumption|lra]).
    rewrite (to_int_nonneg b Hb).
    pose proof (Zfloor_nonneg b Hb) as Hfb.
    exists 1. eexists. eexists.
    split; [reflexivity|]. split; [lra|].
    split; [lia|]. split; [reflexivity|]. split; [lia|].
    split; [reflexivity|]. split; [lia|]. split; [|reflexivity].
    intros _. exists (Z.min (fftSize `quot` 2) (Zfloor b)).
    split; [|split; [lia|reflexivity]].
    destruct (Z.gtb_spec (Zfloor b) (fftSize `quot` 2));
      [rewrite Z.min_l by lia|rewrite Z.min_r by lia]; reflexivity.
  - exists 1. eexists. eexists.
    split; [reflexivity|]. split; [lra|].
    split; [lia|]. split; [reflexivity|]. split; [lia|].
    split; [reflexivity|]. split; [reflexivity|]. split; [lia|reflexivity].
Qed.

Lemma exLinear_model : m_model exLinear = Some (exModel 16000).
Proof. vm_compute. reflexivity. Qed.

Lemma exLinear_fftSize : getFFTSize exLinearWorld exLinear = 1024.
Proof. vm_compute. reflexivity. Qed.

Lemma exLinear_minFrequency : m_minFrequency exLinear = 0.
Proof. vm_compute. reflexivity. Qed.

Lemma exLinear_maxFrequency : m_maxFrequency exLinear = 8000.
Proof. vm_compute. reflexivity. Qed.

Lemma effective_frequencies_are_bin_boundaries_witness :
  exists fmin fmax : R,
    getEffectiveMinFrequency exLinearWorld exLinear = Some fmin /\
    fmin = (1 * 16000 / 1024)%R /\
    getEffectiveMaxFrequency exLinearWorld exLinear = Some fmax /\
    fmax = (512 * 16000 / 1024)%R.
Proof.
  destruct (effective_frequencies_are_bin_boundaries
              exLinearWorld exLinear (exModel 16000))
    as (minbin & fmin & fmax & Hmin & Efmin & _ & Hbin & _ & Hmax & _
        & Hmaxbin & _).
  - vm_compute. reflexivity.
  - simpl. lra.
  - vm_compute. reflexivity.
  - exists fmin, fmax.
    rewrite exLinear_fftSize in *. rewrite exLinear_maxFrequency in Hmaxbin.
    rewrite exLinear_minFrequency in Hbin.
    split; [exact Hmin|]. split.
    + rewrite Efmin, (Hbin ltac:(lia)). reflexivity.
    + split; [exact Hmax|].
      destruct (Hmaxbin ltac:(lia)) as (maxbin & Efmax & _ & Emaxbin).
      rewrite (Zfloor_eq 512) in Emaxbin by (simpl; lra).
      rewrite Efmax, Emaxbin. reflexivity.
Defined.

(** C3, the claim as written fails.  With minimum frequency 0 (the spec's
    example: sample rate 16000, FFT size 1024, maximum frequency 8000) the
    effective minimum is bin 1, 15.625 Hz, and not bin 0.  With minimum
    frequency 30 in the same layer the effective minimum is bin 1 again,
    14.375 Hz away, though bin 2, 31.25 Hz, is 1.25 Hz away: the bin is not
    the nearest one. *)
Lemma effective_min_is_bin_one :
  (m_minFrequency exLinear = 0 /\
   exists fmin : R,
     getEffectiveMinFrequency exLinearWorld exLinear = Some fmin /\
     fmin = (125 / 8)%R /\ fmin <> 0%R) /\
  (m_minFrequency exLowCut = 30 /\
   getFFTSize exLinearWorld exLowCut = 1024 /\
   exists fmin : R,
     getEffectiveMinFrequency exLinearWorld exLowCut = Some fmin /\
     fmin = (1 * 16000 / 1024)%R /\
     (2 * 16000 / 1024 - 30 < 30 - fmin)%R).
Proof.
  split.
  - split; [exact exLinear_minFrequency|].
    exists (16000 / 1024)%R. split.
    + unfold getEffectiveMinFrequency.
      rewrite exLinear_model, exLinear_minFrequency, exLinear_fftSize.
      reflexivity.
    + split; lra.
  - split; [vm_compute; reflexivity|]. split; [vm_compute; reflexivity|].
    exists (1 * 16000 / 1024)%R. split; [|split; lra].
    unfold getEffectiveMinFrequency.
    replace (m_model exLowCut) with (Some (exModel 16000))
      by (vm_compute; reflexivity).
    replace (m_minFrequency exLowCut) with 30 by (vm_compute; reflexivity).
    replace (getFFTSize exLinearWorld exLowCut) with 1024
      by (vm_compute; reflexivity).
    cbn [mbind option_bind]. change (getSampleRate (exModel 16000)) with 16000%R.
    change (0 <? 30) with true. cbv iota.
    rewrite (to_int_between (30 * 1024 / 16000 + 1 / 100) 1) by (try lia; lra).
    reflexivity.
Qed.

(** ** The zoom mapper *)

Module MapperFacts.
Import SpectrogramRangeMapper.

Lemma div_le_intro (a b c : R) : (0 < b -> a <= c * b -> a / b <= c)%R.
Proof.
  intros Hb H. apply Rmult_le_reg_r with b; [exact Hb|].
  replace (a / b * b)%R with a by (field; lra). exact H.
Qed.

Lemma div_lt_intro (a b c : R) : (0 < b -> c * b < a -> c < a / b)%R.
Proof.
  intros Hb H. apply Rmult_lt_reg_r with b; [exact Hb|].
  replace (a / b * b)%R with a by (field; lra). exact H.
Qed.

Lemma sqrt2_bounds : (13924 / 10000 < sqrt 2 < 144 / 100)%R.
Proof.
  pose proof (sqrt_pos 2) as Hp.
  pose proof (sqrt_sqrt 2 ltac:(lra)) as Hs.
  split; nra.
Qed.

Lemma s2_bounds : (118 / 100 < s2 < 12 / 10)%R.
Proof.
  unfold s2.
  pose proof sqrt2_bounds as Hb.
  pose proof (sqrt_pos (sqrt 2)) as Hp.
  pose proof (sqrt_sqrt (sqrt 2) ltac:(lra)) as Hs.
  split; nra.
Qed.

Lemma s2_pos : (0 < s2)%R.
Proof. pose proof s2_bounds. lra. Qed.

Lemma s2_pow4 : (s2 ^ 4 = 2)%R.
Proof.
  unfold s2. simpl.
  pose proof (sqrt_pos 2) as Hp.
  replace (sqrt (sqrt 2) * (sqrt (sqrt 2) * (sqrt (sqrt 2) * (sqrt (sqrt 2) * 1))))%R
    with ((sqrt (sqrt 2) * sqrt (sqrt 2)) * (sqrt (sqrt 2) * sqrt (sqrt 2)))%R
    by ring.
  rewrite (sqrt_sqrt (sqrt 2) Hp). apply sqrt_sqrt. lra.
Qed.

Lemma s2_Rpower : s2 = Rpower 2 (1 / 4).
Proof.
  unfold s2.
  rewrite <- (Rpower_sqrt 2) by lra.
  rewrite <- Rpower_sqrt by apply exp_pos.
  rewrite Rpower_mult. f_equal. lra.
Qed.

Lemma s2_pow_Rpower (k : nat) : (s2 ^ k)%R = Rpower 2 (INR k / 4).
Proof.
  rewrite <- Rpower_pow by apply s2_pos.
  rewrite s2_Rpower, Rpower_mult. f_equal. lra.
Qed.

Lemma s2_pow_pos (k : nat) : (0 < s2 ^ k)%R.
Proof. apply pow_lt, s2_pos. Qed.

Lemma s2_pow_4k (k : nat) : (s2 ^ (4 * k) = 2 ^ k)%R.
Proof. rewrite pow_mult, s2_pow4. reflexivity. Qed.

Lemma s2_pow_61 : (38000 < s2 ^ 61 < 40000)%R.
Proof.
  change 61%nat with (S (4 * 15)). cbn [pow]. rewrite s2_pow_4k.
  pose proof s2_bounds. simpl. lra.
Qed.

Lemma s2_pow_62 : (40000 < s2 ^ 62 < 65536)%R.
Proof.
  change 62%nat with (S (S (4 * 15))). cbn [pow]. rewrite s2_pow_4k.
  pose proof sqrt2_bounds as Hb. pose proof (sqrt_pos (sqrt 2)) as Hp.
  assert (Hs : (s2 * s2 = sqrt 2)%R) by (apply sqrt_sqrt; lra).
  replace (s2 * (s2 * 2 ^ 15))%R with (sqrt 2 * 2 ^ 15)%R
    by (rewrite <- Hs; ring).
  simpl. lra.
Qed.

Lemma s2_pow_le (j k : nat) : (j <= k)%nat -> (s2 ^ j <= s2 ^ k)%R.
Proof. intros H. apply Rle_pow; [pose proof s2_bounds; lra|exact H]. Qed.

Section Mapper.

Variables (sr : R) (fftsize : Z).

Local Abbreviation m := (make sr fftsize).

Lemma valueLoop_pow (k : nat) (dist : R) :
  valueLoop k m dist = (dist / s2 ^ k)%R.
Proof.
  revert dist. induction k as [|k IH]; intros dist; cbn [valueLoop pow].
  - lra.
  - rewrite IH. change (m_s2 m) with s2.
    pose proof s2_pos. pose proof (s2_pow_pos k). field. lra.
Qed.

Lemma getValueForPosition_pow (n : Z) :
  getValueForPosition m n = (sr / 2 / s2 ^ Z.to_nat n)%R.
Proof. unfold getValueForPosition. rewrite valueLoop_pow. reflexivity. Qed.

Lemma goes_on_test (value dist : R) :
  Rltb (value + 1 / 100000) dist && Rltb (1 / 10) dist = true <->
  goes_on value dist.
Proof.
  unfold goes_on, Rltb.
  destruct (Rlt_dec _ dist), (Rlt_dec _ dist); simpl; intuition discriminate.
Qed.

(** The loop returns [n + k] exactly when its test holds for the first
    [k] distances and fails for the next. *)
Lemma positionLoop_run (fuel : nat) (value dist : R) (n r : Z) :
  positionLoop fuel m value dist n = Some r ->
  exists k : nat,
    r = n + Z.of_nat k /\ (k < fuel)%nat /\
    (forall j, (j < k)%nat -> goes_on value (dist / s2 ^ j)) /\
    ~ goes_on value (dist / s2 ^ k).
Proof.
  revert dist n.
  induction fuel as [|fuel IH]; intros dist n; cbn [positionLoop].
  - discriminate.
  - destruct (_ && _) eqn:Et.
    + intros H. apply IH in H as (k & -> & Hk & Hgo & Hstop).
      change (m_s2 m) with s2 in *.
      pose proof s2_pos as Hs.
      assert (Hshift : forall j, (dist / s2 / s2 ^ j = dist / s2 ^ S j)%R).
      { intros j. pose proof (s2_pow_pos j). simpl. field. lra. }
      exists (S k). split; [lia|]. split; [lia|]. split.
      * intros [|j] Hj.
        -- apply goes_on_test in Et. simpl.
           replace (dist / 1)%R with dist by lra. exact Et.
        -- rewrite <- Hshift. apply Hgo. lia.
      * rewrite <- Hshift. exact Hstop.
    + intros [= <-]. exists 0%nat. split; [lia|]. split; [lia|]. split.
      * intros j Hj. lia.
      * simpl. replace (dist / 1)%R with dist by lra.
        rewrite <- goes_on_test, Et. discriminate.
Qed.

Lemma positionLoop_exact (k fuel : nat) (value dist : R) (n : Z) :
  (k < fuel)%nat ->
  (forall j, (j < k)%nat -> goes_on value (dist / s2 ^ j)) ->
  ~ goes_on value (dist / s2 ^ k) ->
  positionLoop fuel m value dist n = Some (n + Z.of_nat k).
Proof.
  revert fuel dist n. induction k as [|k IH]; intros fuel dist n Hf Hgo Hstop.
  - destruct fuel as [|fuel]; [lia|]. cbn [positionLoop].
    simpl in Hstop. replace (dist / 1)%R with dist in Hstop by lra.
    destruct (_ && _) eqn:Et.
    + apply goes_on_test in Et. contradiction.
    + f_equal. lia.
  - destruct fuel as [|fuel]; [lia|]. cbn [positionLoop].
    pose proof s2_pos as Hs.
    assert (Hshift : forall j, (dist / s2 / s2 ^ j = dist / s2 ^ S j)%R).
    { intros j. pose proof (s2_pow_pos j). simpl. field. lra. }
    assert (H0 : goes_on value dist).
    { specialize (Hgo 0%nat ltac:(lia)). simpl in Hgo.
      replace (dist / 1)%R with dist in Hgo by lra. exact Hgo. }
    apply goes_on_test in H0. rewrite H0.
    change (m_s2 m) with s2.
    rewrite (IH fuel (dist / s2)%R (n + 1)).
    + f_equal. lia.
    + lia.
    + intros j Hj. rewrite Hshift. apply Hgo. lia.
    + rewrite Hshift. exact Hstop.
Qed.

(** More fuel does not change a result. *)
Lemma positionLoop_more_fuel (fuel fuel' : nat) (value dist : R) (n r : Z) :
  positionLoop fuel m value dist n = Some r ->
  (fuel <= fuel')%nat ->
  positionLoop fuel' m value dist n = Some r.
Proof.
  intros H Hle.
  apply positionLoop_run in H as (k & -> & Hk & Hgo & Hstop).
  apply positionLoop_exact; [lia|assumption|assumption].
Qed.

(** The loop ends: the distance falls below 0.1 after finitely many
    divisions by the ratio. *)
Lemma distance_falls (dist : R) :
  exists K : nat, (dist / s2 ^ K <= 1 / 10)%R.
Proof.
  destruct (Rle_dec dist (1 / 10)) as [Hd|Hd].
  - exists 0%nat. simpl. lra.
  - destruct (Pow_x_infinity s2) with (b := (10 * dist)%R) as [N HN].
    + pose proof s2_bounds. rewrite Rabs_pos_eq; lra.
    + exists N. specialize (HN N (Nat.le_refl N)).
      pose proof (s2_pow_pos N) as Hp.
      rewrite Rabs_pos_eq in HN by lra.
      apply div_le_intro; [exact Hp|]. lra.
Qed.

Lemma positionLoop_ends_within (K : nat) (value dist : R) (n : Z) :
  (dist / s2 ^ K <= 1 / 10)%R ->
  exists r, positionLoop (S K) m value dist n = Some r.
Proof.
  revert dist n. induction K as [|K IH]; intros dist n HK.
  - cbn [positionLoop pow] in *. destruct (_ && _) eqn:Et; [|eauto].
    apply goes_on_test in Et as [_ Et]. lra.
  - change (positionLoop (S (S K)) m value dist n)
      with (if Rltb (value + 1 / 100000) dist && Rltb (1 / 10) dist
            then positionLoop (S K) m value (dist / m_s2 m)%R (n + 1)
            else Some n).
    destruct (_ && _); [|eauto].
    apply IH. change (m_s2 m) with s2.
    pose proof s2_pos. pose proof (s2_pow_pos K).
    replace (dist / s2 / s2 ^ K)%R with (dist / s2 ^ S K)%R; [exact HK|].
    simpl. field. lra.
Qed.

Lemma getPositionForValue_terminates (value : R) :
  exists fuel r, getPositionForValue fuel m value = Some r.
Proof.
  destruct (distance_falls (m_dist m)) as [K HK].
  destruct (positionLoop_ends_within K value (m_dist m) 0 HK) as [r Hr].
  exists (S K), r. exact Hr.
Qed.

(** The widest range is step 0. *)
Lemma getPositionForValue_nyquist (fuel : nat) :
  getPositionForValue (S fuel) m (sr / 2)%R = Some 0.
Proof.
  unfold getPositionForValue. cbn [positionLoop].
  change (m_dist m) with (sr / 2)%R.
  destruct (_ && _) eqn:Et; [|reflexivity].
  apply goes_on_test in Et as [Et _]. lra.
Qed.

(** The last step: the distance is at most 0.1, and more than 0.1 over
    the ratio when at least one step was taken. *)
Lemma getPositionForValue_zero (fuel : nat) (r : Z) :
  getPositionForValue fuel m 0%R = Some r ->
  0 <= r /\
  (getValueForPosition m r <= 1 / 10)%R /\
  (1 / 10 < sr / 2 -> 1 / 12 < getValueForPosition m r)%R.
Proof.
  unfold getPositionForValue. intros H.
  apply positionLoop_run in H as (k & -> & _ & Hgo & Hstop).
  change (m_dist m) with (sr / 2)%R in *.
  rewrite Z.add_0_l, getValueForPosition_pow, Nat2Z.id.
  split; [lia|]. split.
  - unfold goes_on in Hstop.
    destruct (Rle_dec (sr / 2 / s2 ^ k) (1 / 10)); [assumption|].
    exfalso. apply Hstop. lra.
  - intros Hwide. destruct k as [|k].
    + simpl. lra.
    + destruct (Hgo k ltac:(lia)) as [_ Hk].
      pose proof s2_bounds as Hb. pose proof (s2_pow_pos k) as Hp.
      replace (sr / 2 / s2 ^ S k)%R with (sr / 2 / s2 ^ k / s2)%R
        by (simpl; field; lra).
      apply div_lt_intro; [lra|]. nra.
Qed.

Lemma distance_antitone (dist : R) (j k : nat) :
  (0 <= dist)%R -> (j <= k)%nat -> (dist / s2 ^ k <= dist / s2 ^ j)%R.
Proof.
  intros Hd Hjk.
  pose proof (s2_pow_pos j) as Hj. pose proof (s2_pow_pos k) as Hk.
  pose proof (s2_pow_le j k Hjk) as Hle.
  apply div_le_intro; [exact Hk|].
  replace (dist / s2 ^ j * s2 ^ k)%R with (dist * (s2 ^ k / s2 ^ j))%R
    by (field; lra).
  assert (1 <= s2 ^ k / s2 ^ j)%R; [|nra].
  apply Rmult_le_reg_r with (s2 ^ j)%R; [exact Hj|].
  replace (s2 ^ k / s2 ^ j * s2 ^ j)%R with (s2 ^ k)%R by (field; lra).
  lra.
Qed.

(** A step the mapper can return is mapped to its range and back. *)
Lemma round_trip (n : Z) :
  (exists fuel value, getPositionForValue fuel m value = Some n) ->
  forall fuel, (Z.to_nat n < fuel)%nat ->
    getPositionForValue fuel m (getValueForPosition m n) = Some n.
Proof.
  intros (fuel0 & value & H) fuel Hfuel.
  unfold getPositionForValue in *.
  apply positionLoop_run in H as (k & Hn & _ & Hgo & _).
  rewrite Z.add_0_l in Hn. subst n. rewrite Nat2Z.id in Hfuel.
  rewrite getValueForPosition_pow, Nat2Z.id.
  change (m_dist m) with (sr / 2)%R in *.
  replace (Some (Z.of_nat k)) with (Some (0 + Z.of_nat k))
    by (f_equal; lia).
  apply positionLoop_exact; [exact Hfuel| |].
  - intros j Hj. destruct k as [|k]; [lia|].
    destruct (Hgo j Hj) as [_ Hj01].
    destruct (Hgo k ltac:(lia)) as [_ Hk01].
    destruct (Hgo 0%nat ltac:(lia)) as [_ H0]. simpl in H0.
    assert (Hd : (0 <= sr / 2)%R) by lra.
    pose proof (distance_antitone (sr / 2) j k Hd ltac:(lia)) as Hmono.
    pose proof s2_bounds as Hb. pose proof (s2_pow_pos k) as Hp.
    split; [|exact Hj01].
    replace (sr / 2 / s2 ^ S k)%R with (sr / 2 / s2 ^ k / s2)%R
      by (simpl; field; lra).
    assert (sr / 2 / s2 ^ k / s2 <= sr / 2 / s2 ^ k * (100 / 118))%R.
    { apply div_le_intro; [lra|]. nra. }
    lra.
  - unfold goes_on. lra.
Qed.

End Mapper.

(** At sample rate 8000 the distance first falls to 0.1 after 62 steps. *)
Lemma last_step_at_8000 (fftsize : Z) :
  getPositionForValue 63 (make 8000 fftsize) 0%R = Some 62.
Proof.
  apply (positionLoop_exact 8000 fftsize 62 63 0%R (8000 / 2)%R 0).
  - lia.
  - intros j Hj.
    pose proof (distance_antitone (8000 / 2) j 61 ltac:(lra) ltac:(lia)) as Hj61.
    pose proof s2_pow_61 as Hb.
    assert (1 / 10 < 8000 / 2 / s2 ^ 61)%R
      by (apply div_lt_intro; lra).
    unfold goes_on. lra.
  - pose proof s2_pow_62 as Hb.
    assert (8000 / 2 / s2 ^ 62 <= 1 / 10)%R
      by (apply div_le_intro; lra).
    unfold goes_on. lra.
Qed.

Lemma range_of_step_62_at_8000 (fftsize : Z) :
  (8000 / 131072 < getValueForPosition (make 8000 fftsize) 62)%R.
Proof.
  rewrite getValueForPosition_pow. change (Z.to_nat 62) with 62%nat.
  pose proof s2_pow_62 as Hb. apply div_lt_intro; lra.
Qed.

Lemma default_step_at_8000 (fftsize : Z) :
  getPositionForValue 63 (make 8000 fftsize) 8000%R = Some 0.
Proof.
  apply (positionLoop_exact 8000 fftsize 0 63 8000%R (8000 / 2)%R 0).
  - lia.
  - intros j Hj. lia.
  - unfold goes_on. simpl. lra.
Qed.

End MapperFacts.

Lemma getVerticalZoomSteps_maxStep
    (fuel : nat) (w : World) (s : Layer) (mdl : DenseTimeValueModel)
    (d0 steps d : Z) :
  m_model s = Some mdl ->
  getVerticalZoomSteps fuel w s d0 = Some (steps, d) ->
  SpectrogramRangeMapper.getPositionForValue
    fuel (SpectrogramRangeMapper.make (getSampleRate mdl) (getFFTSize w s)) 0%R
  = Some steps.
Proof.
  intros Hm H. unfold getVerticalZoomSteps in H. rewrite Hm in H.
  destruct (SpectrogramRangeMapper.getPositionForValue fuel _ 0%R)
    as [maxStep|] eqn:Emax; [|discriminate].
  destruct fuel as [|fuel]; [discriminate|].
  rewrite MapperFacts.getPositionForValue_nyquist in H. cbn [mbind option_bind] in H.
  destruct (SpectrogramRangeMapper.getPositionForValue _ _ (IZR _)) in H;
    [|discriminate].
  cbn [mbind option_bind] in H. injection H as <- _. f_equal. lia.
Qed.

Lemma getVerticalZoomSteps_terminates
    (w : World) (s : Layer) (d0 : Z) :
  exists fuel steps d, getVerticalZoomSteps fuel w s d0 = Some (steps, d).
Proof.
  unfold getVerticalZoomSteps.
  destruct (m_model s) as [mdl|]; [|exists 0%nat; eauto].
  set (initialMax := if m_initialMaxFrequency s =? 0 then _ else _).
  destruct (MapperFacts.getPositionForValue_terminates
              (getSampleRate mdl) (getFFTSize w s) 0%R) as (f1 & r1 & H1).
  destruct (MapperFacts.getPositionForValue_terminates
              (getSampleRate mdl) (getFFTSize w s) (IZR initialMax))
    as (f2 & r2 & H2).
  exists (S (f1 + f2)), (r1 - 0), (r2 - 0).
  rewrite (MapperFacts.getPositionForValue_nyquist _ _ (f1 + f2)).
  unfold SpectrogramRangeMapper.getPositionForValue in *.
  rewrite (MapperFacts.positionLoop_more_fuel _ _ f1 (S (f1 + f2)) _ _ _ _ H1)
    by lia.
  rewrite (MapperFacts.positionLoop_more_fuel _ _ f2 (S (f1 + f2)) _ _ _ _ H2)
    by lia.
  reflexivity.
Qed.

(** C5.  A zoom step that [getPositionForValue] can return (for some range
    width) is mapped by [getValueForPosition] to a width that
    [getPositionForValue] maps back to the same step; the loop ends, with
    that result, for any fuel above the step. *)
Theorem zoom_step_round_trip (sr : R) (fftsize : Z) (n : Z) :
  let m := SpectrogramRangeMapper.make sr fftsize in
  (exists fuel value,
      SpectrogramRangeMapper.getPositionForValue fuel m value = Some n) ->
  exists fuel0 : nat,
    forall fuel, (fuel0 <= fuel)%nat ->
      SpectrogramRangeMapper.getPositionForValue
        fuel m (SpectrogramRangeMapper.getValueForPosition m n) = Some n.
Proof.
  intros m H. exists (S (Z.to_nat n)). intros fuel Hfuel.
  apply MapperFacts.round_trip; [exact H|lia].
Qed.

Lemma zoom_step_round_trip_witness :
  let m := SpectrogramRangeMapper.make 44100 4096 in
  exists fuel0 : nat,
    forall fuel, (fuel0 <= fuel)%nat ->
      SpectrogramRangeMapper.getPositionForValue
        fuel m (SpectrogramRangeMapper.getValueForPosition m 1) = Some 1.
Proof.
  apply (zoom_step_round_trip 44100 4096 1).
  exists 2%nat, 20000%R.
  apply (MapperFacts.positionLoop_exact 44100 4096 1 2 20000 (44100 / 2) 0).
  - lia.
  - intros j Hj. assert (j = 0)%nat as -> by lia.
    unfold goes_on. simpl. lra.
  - unfold goes_on. intros [H _].
    pose proof MapperFacts.s2_bounds as Hb.
    assert (44100 / 2 / s2 ^ 1 <= 20000)%R; [|lra].
    apply MapperFacts.div_le_intro; [simpl; lra|]. simpl. lra.
Defined.

(** ** Zoom steps and bin resolution *)

(** The zoom steps as the code has them.  The range of step [n] is the
    Nyquist range [sr / 2] divided by [2 ^ (n / 4)]: each step divides it by
    the fourth root of 2, and step 0 is the whole range.
    [getVerticalZoomSteps] ends and reports a last step whose range is at
    most 0.1 Hz, whatever the FFT size; that range is narrower than one bin,
    [sr / fftSize], only when a bin is wider than 0.1 Hz. *)
Lemma zoom_steps_geometric_down_to_a_tenth
    (w : World) (s : Layer) (mdl : DenseTimeValueModel) :
  m_model s = Some mdl ->
  (0 < getSampleRate mdl)%R ->
  let sr := getSampleRate mdl in
  let fftSize := getFFTSize w s in
  let m := SpectrogramRangeMapper.make sr fftSize in
  (forall n, 0 <= n ->
     SpectrogramRangeMapper.getValueForPosition m n
     = (sr / 2 / Rpower 2 (IZR n / 4))%R) /\
  (forall n, 0 <= n ->
     SpectrogramRangeMapper.getValueForPosition m (n + 1)
     = (SpectrogramRangeMapper.getValueForPosition m n / sqrt (sqrt 2))%R) /\
  SpectrogramRangeMapper.getValueForPosition m 0 = (sr / 2)%R /\
  (exists fuel steps d,
     getVerticalZoomSteps fuel w s 0 = Some (steps, d)) /\
  (forall fuel d0 steps d,
     getVerticalZoomSteps fuel w s d0 = Some (steps, d) ->
     0 <= steps /\
     (SpectrogramRangeMapper.getValueForPosition m steps <= 1 / 10)%R /\
     (1 / 10 < sr / IZR fftSize ->
      SpectrogramRangeMapper.getValueForPosition m steps < sr / IZR fftSize)%R).
Proof.
  intros Hm Hsr sr fftSize m.
  split; [|split; [|split; [|split]]].
  - intros n Hn. subst m. rewrite MapperFacts.getValueForPosition_pow.
    rewrite MapperFacts.s2_pow_Rpower, INR_IZR_INZ, Z2Nat.id by exact Hn.
    reflexivity.
  - intros n Hn. subst m. rewrite !MapperFacts.getValueForPosition_pow.
    rewrite Z2Nat.inj_add by lia. change (Z.to_nat 1) with 1%nat.
    rewrite Nat.add_1_r. fold s2.
    pose proof MapperFacts.s2_pos. pose proof (MapperFacts.s2_pow_pos (Z.to_nat n)).
    simpl. field. lra.
  - subst m. rewrite MapperFacts.getValueForPosition_pow. simpl. lra.
  - apply getVerticalZoomSteps_terminates.
  - intros fuel d0 steps d H.
    apply (getVerticalZoomSteps_maxStep fuel w s mdl d0 steps d Hm) in H.
    apply MapperFacts.getPositionForValue_zero in H as (H0 & Hle & _).
    fold sr fftSize m in Hle.
    split; [exact H0|]. split; [exact Hle|]. lra.
Qed.

Lemma zoom_steps_geometric_down_to_a_tenth_witness :
  let w := exWorld SpectrogramZeroPadded in
  let s := exFresh w 44100 in
  SpectrogramRangeMapper.getValueForPosition
    (SpectrogramRangeMapper.make 44100 (getFFTSize w s)) 0 = (44100 / 2)%R /\
  exists fuel steps d, getVerticalZoomSteps fuel w s 0 = Some (steps, d).
Proof.
  destruct (zoom_steps_geometric_down_to_a_tenth
              (exWorld SpectrogramZeroPadded)
              (exFresh (exWorld SpectrogramZeroPadded) 44100)
              (exModel 44100))
    as (_ & _ & H0 & Hends & _).
  - vm_compute. reflexivity.
  - simpl. lra.
  - split; [exact H0|exact Hends].
Defined.

(** C6, the code at the failing input.  At sample rate 8000 with window
    size 32768 and zero padding the FFT size is 131072 and one bin is
    [8000 / 131072] Hz, about 0.061 Hz, wide.  [getVerticalZoomSteps]
    reports 62 steps, and the range of step 62, the last, is wider than a
    bin.  The claim has it narrower, and so has the comment in
    [getValueForPosition], by which the steps go on until the visible range
    is smaller than the frequency step between bins at the current FFT
    size: the mapper drops the FFT size it is given and stops at 0.1 Hz. *)
Lemma last_zoom_step_wider_than_a_bin :
  getFFTSize exLongWindowWorld exLongWindow = 131072 /\
  getVerticalZoomSteps 63 exLongWindowWorld exLongWindow 0 = Some (62, 0) /\
  (8000 / 131072 <
   SpectrogramRangeMapper.getValueForPosition
     (SpectrogramRangeMapper.make 8000 131072) 62)%R.
Proof.
  assert (Hm : m_model exLongWindow = Some (exModel 8000))
    by (vm_compute; reflexivity).
  assert (Hi : m_initialMaxFrequency exLongWindow = 8000)
    by (vm_compute; reflexivity).
  split; [vm_compute; reflexivity|]. split.
  - unfold getVerticalZoomSteps. rewrite Hm, Hi.
    change (getSampleRate (exModel 8000)) with 8000%R.
    change (8000 =? 0) with false. cbv iota.
    set (fftSize := getFFTSize exLongWindowWorld exLongWindow).
    rewrite (MapperFacts.last_step_at_8000 fftSize).
    rewrite (MapperFacts.default_step_at_8000 fftSize).
    rewrite (MapperFacts.getPositionForValue_nyquist 8000 fftSize 62).
    reflexivity.
  - apply MapperFacts.range_of_step_62_at_8000.
Qed.

(** ** Zooming about the midpoint *)

Lemma clamp_of_pair (mmin mmax : R) (e : R * R) :
  clampExtents mmin mmax e = clampExtents mmin mmax (fst e, snd e).
Proof. destruct e. reflexivity. Qed.

Lemma clampExtents_inside (mmin mmax newmin newmax : R) :
  (mmin <= newmin)%R -> (newmax <= mmax)%R ->
  clampExtents mmin mmax (newmin, newmax) = (newmin, newmax).
Proof.
  intros Hlo Hhi. unfold clampExtents, Rltb.
  destruct (Rlt_dec newmin mmin); [lra|].
  destruct (Rlt_dec mmax newmax); [lra|]. reflexivity.
Qed.

Lemma clampExtents_above (mmin mmax newmin newmax : R) :
  (mmin <= newmin)%R -> (mmax < newmax)%R ->
  clampExtents mmin mmax (newmin, newmax) = (newmin, mmax).
Proof.
  intros Hlo Hhi. unfold clampExtents, Rltb.
  destruct (Rlt_dec newmin mmin); [lra|].
  destruct (Rlt_dec mmax newmax); [|lra]. reflexivity.
Qed.

Lemma clampExtents_below (mmin mmax newmin newmax : R) :
  (newmin < mmin)%R -> (newmax + (mmin - newmin) <= mmax)%R ->
  clampExtents mmin mmax (newmin, newmax)
  = (mmin, (newmax + (mmin - newmin))%R).
Proof.
  intros Hlo Hhi. unfold clampExtents, Rltb.
  destruct (Rlt_dec newmin mmin); [|lra].
  destruct (Rlt_dec mmax _); [lra|]. reflexivity.
Qed.

Lemma getValueForPosition_pos (sr : R) (fftsize step : Z) :
  (0 < sr)%R ->
  (0 < SpectrogramRangeMapper.getValueForPosition
         (SpectrogramRangeMapper.make sr fftsize) step)%R.
Proof.
  intros Hsr. rewrite MapperFacts.getValueForPosition_pow.
  apply Rdiv_lt_0_compat; [lra|apply MapperFacts.s2_pow_pos].
Qed.

(** No step is wider than step 0, the Nyquist range. *)
Lemma getValueForPosition_le_nyquist (sr : R) (fftsize step : Z) :
  (0 < sr)%R ->
  (SpectrogramRangeMapper.getValueForPosition
     (SpectrogramRangeMapper.make sr fftsize) step <= sr / 2)%R.
Proof.
  intros Hsr. rewrite MapperFacts.getValueForPosition_pow.
  pose proof (MapperFacts.s2_pow_le 0 (Z.to_nat step) ltac:(lia)) as H.
  change (s2 ^ 0)%R with 1%R in H.
  apply MapperFacts.div_le_intro; [lra|]. nra.
Qed.

(** [lrint] answers an integer within a half of its argument. *)
Lemma lrint_near (x : R) : (x - 1 / 2 <= IZR (lrint x) <= x + 1 / 2)%R.
Proof.
  unfold lrint. pose proof (Zfloor_bound x) as [Hlo Hhi].
  destruct (Rlt_dec (x - IZR (Zfloor x)) (1 / 2)) as [H|H].
  - lra.
  - assert (E : forall z, IZR (z + 1) = (IZR z + 1)%R)
      by (intros z; rewrite plus_IZR; reflexivity).
    destruct (Rlt_dec (1 / 2) (x - IZR (Zfloor x))) as [H'|H'].
    + rewrite E. lra.
    + destruct (Z.even (Zfloor x)); [|rewrite E]; lra.
Qed.

Lemma lrint_IZR (z : Z) : lrint (IZR z) = z.
Proof.
  unfold lrint. rewrite ZfloorZ.
  destruct (Rlt_dec (IZR z - IZR z) (1 / 2)); [reflexivity|lra].
Qed.

(** A value strictly within a half of an integer is rounded to it. *)
Lemma lrint_within (x : R) (z : Z) :
  (IZR z - 1 / 2 < x < IZR z + 1 / 2)%R -> lrint x = z.
Proof.
  intros [Hlo Hhi]. pose proof (lrint_near x) as H.
  assert (Hl : (IZR (lrint x) < IZR z + 1)%R) by lra.
  assert (Hg : (IZR z - 1 < IZR (lrint x))%R) by lra.
  rewrite <- plus_IZR in Hl. rewrite <- minus_IZR in Hg.
  apply lt_IZR in Hl, Hg. lia.
Qed.

(** A tie goes to the even neighbour. *)
Lemma lrint_tie (z : Z) :
  lrint (IZR z + 1 / 2) = if Z.even z then z else z + 1.
Proof.
  unfold lrint.
  rewrite (Zfloor_eq z) by lra.
  destruct (Rlt_dec _ _); [lra|]. destruct (Rlt_dec _ _); [lra|]. reflexivity.
Qed.

Lemma int_of_int64_int (z : Z) :
  -2147483648 <= z <= 2147483647 -> int_of_int64 z = z.
Proof. intros H. unfold int_of_int64. rewrite Z.mod_small; lia. Qed.

(** What [lrint] answers for a value of the Nyquist range is an [int]. *)
Lemma lrint_int (x top : R) :
  (0 <= x <= top)%R -> (top <= 2147483647)%R ->
  int_of_int64 (lrint x) = lrint x.
Proof.
  intros Hx Htop. pose proof (lrint_near x) as H.
  apply int_of_int64_int.
  assert (Hl : (IZR (lrint x) < IZR 2147483648)%R) by lra.
  assert (Hg : (IZR (-1) < IZR (lrint x))%R) by lra.
  apply lt_IZR in Hl, Hg. lia.
Qed.

Lemma setMinFrequency_min (mf : Z) (s : Layer) :
  m_minFrequency (setMinFrequency mf s) = mf.
Proof.
  unfold setMinFrequency.
  destruct (Z.eqb_spec (m_minFrequency s) mf); [assumption|reflexivity].
Qed.

Lemma setMaxFrequency_max (mf : Z) (s : Layer) :
  m_maxFrequency (setMaxFrequency mf s) = mf.
Proof.
  unfold setMaxFrequency.
  destruct (Z.eqb_spec (m_maxFrequency s) mf); [assumption|reflexivity].
Qed.

Lemma setMaxFrequency_min (mf : Z) (s : Layer) :
  m_minFrequency (setMaxFrequency mf s) = m_minFrequency s.
Proof. unfold setMaxFrequency. destruct (_ =? _); reflexivity. Qed.

(** The extents [setVerticalZoomStep] leaves in the layer: the clamped
    pair, each rounded and narrowed to an [int]. *)
Lemma setVerticalZoomStep_extents
    (w : World) (s : Layer) (mdl : DenseTimeValueModel) (step : Z) :
  m_model s = Some mdl ->
  let sr := getSampleRate mdl in
  let newdist :=
    SpectrogramRangeMapper.getValueForPosition
      (SpectrogramRangeMapper.make sr (getFFTSize w s)) step in
  let e := zoomExtents (m_binScale s =? BinScale_Log)
                       (IZR (m_minFrequency s)) (IZR (m_maxFrequency s))
                       newdist in
  let clamped := clampExtents 0 (sr / 2) (fst e, snd e) in
  m_minFrequency (setVerticalZoomStep w step s)
  = int_of_int64 (lrint (fst clamped)) /\
  m_maxFrequency (setVerticalZoomStep w step s)
  = int_of_int64 (lrint (snd clamped)).
Proof.
  intros Hm sr newdist e clamped.
  unfold setVerticalZoomStep. rewrite Hm.
  fold sr newdist e. rewrite (clamp_of_pair _ _ e). fold clamped.
  destruct clamped as [newmin newmax]. cbn [fst snd].
  rewrite setMaxFrequency_min, setMinFrequency_min, setMaxFrequency_max.
  split; reflexivity.
Qed.

(** The positive root of [x^2 - d x - a b = 0] for [0 < d] and [0 <= a b]. *)
Lemma positive_root (d a b : R) :
  (0 < d)%R -> (0 <= a)%R -> (0 <= b)%R ->
  let x := ((d + sqrt (d * d + 4 * a * b)) / 2)%R in
  (x * x - d * x - a * b = 0)%R /\ (d <= x)%R /\
  (forall y : R, (0 < y)%R -> (y * y - d * y - a * b = 0)%R -> y = x).
Proof.
  intros Hd Ha Hb x. subst x.
  assert (Hp : (0 <= a * b)%R) by (apply Rmult_le_pos; assumption).
  set (D := (d * d + 4 * a * b)%R).
  assert (HD : (0 <= D)%R) by (unfold D; nra).
  pose proof (sqrt_pos D) as Hr. pose proof (sqrt_sqrt D HD) as Hrr.
  set (r := sqrt D) in *.
  assert (Hge : (d <= r)%R) by (unfold D in Hrr; nra).
  split; [unfold D in Hrr; nra|]. split; [lra|].
  intros y Hy Hroot.
  assert (Hfac : ((y - (d + r) / 2) * (y + (d + r) / 2 - d) = 0)%R)
    by (unfold D in Hrr; nra).
  apply Rmult_integral in Hfac as [Hfac|Hfac]; lra.
Qed.

(** C4 (as amended).  For a model whose Nyquist frequency is an [int] and
    extents that are [int]s (not negative, under Log scale):
    [setVerticalZoomStep] computes a pair [(newmin, newmax)] whose width is
    the range [newdist] of the step.  Under Log scale [newmax] is the
    positive root of [x^2 - newdist x - dmin dmax = 0], given by the closed
    form, with [newmin = newmax - newdist], and the geometric midpoint of
    the pair is that of the current extents; under Linear scale the
    arithmetic midpoint of the pair is that of the current extents.  The
    layer does not store this pair but the pair clamped to the range from 0
    to the Nyquist frequency and rounded to integers: when the pair lies
    within the range each stored extent is within a half of it (so the
    midpoint is kept up to the rounding); a [newmax] above the Nyquist
    frequency is stored as the Nyquist frequency; a negative [newmin] is
    stored as 0, with [newdist] as the maximum. *)
Theorem setVerticalZoomStep_stores_clamped_pair
    (w : World) (s : Layer) (mdl : DenseTimeValueModel) (step : Z) :
  m_model s = Some mdl ->
  (0 < getSampleRate mdl)%R ->
  (getSampleRate mdl / 2 <= 2147483647)%R ->
  m_minFrequency s <= 2147483647 ->
  m_maxFrequency s <= 2147483647 ->
  (m_binScale s = BinScale_Log ->
   0 <= m_minFrequency s /\ 0 <= m_maxFrequency s) ->
  let dmin := IZR (m_minFrequency s) in
  let dmax := IZR (m_maxFrequency s) in
  let sr := getSampleRate mdl in
  let newdist :=
    SpectrogramRangeMapper.getValueForPosition
      (SpectrogramRangeMapper.make sr (getFFTSize w s)) step in
  let e := zoomExtents (m_binScale s =? BinScale_Log) dmin dmax newdist in
  let newmin := fst e in
  let newmax := snd e in
  let s' := setVerticalZoomStep w step s in
  let storedMin := IZR (m_minFrequency s') in
  let storedMax := IZR (m_maxFrequency s') in
  (0 < newdist <= sr / 2)%R /\
  (newmax - newmin = newdist)%R /\
  (m_binScale s = BinScale_Log ->
   (newmax * newmax - newdist * newmax - dmin * dmax = 0)%R /\
   (0 < newmax)%R /\
   (forall x : R, (0 < x)%R ->
      (x * x - newdist * x - dmin * dmax = 0)%R -> x = newmax) /\
   newmax = ((newdist + sqrt (newdist * newdist + 4 * dmin * dmax)) / 2)%R /\
   (0 <= newmin)%R /\
   sqrt (newmin * newmax) = sqrt (dmin * dmax)) /\
  (m_binScale s <> BinScale_Log ->
   ((newmin + newmax) / 2 = (dmin + dmax) / 2)%R) /\
  ((0 <= newmin)%R -> (newmax <= sr / 2)%R ->
   m_minFrequency s' = lrint newmin /\ m_maxFrequency s' = lrint newmax /\
   (newmin - 1 / 2 <= storedMin <= newmin + 1 / 2)%R /\
   (newmax - 1 / 2 <= storedMax <= newmax + 1 / 2)%R /\
   (m_binScale s <> BinScale_Log ->
    (dmin + dmax) / 2 - 1 / 2 <= (storedMin + storedMax) / 2
    <= (dmin + dmax) / 2 + 1 / 2)%R) /\
  ((0 <= newmin)%R -> (sr / 2 < newmax)%R ->
   m_minFrequency s' = lrint newmin /\ m_maxFrequency s' = lrint (sr / 2)) /\
  ((newmin < 0)%R ->
   m_minFrequency s' = 0 /\ m_maxFrequency s' = lrint newdist).
Proof.
  intros Hm Hsr Hint Hmin Hmax Hpos dmin dmax sr newdist e newmin newmax s'
         storedMin storedMax.
  change (0 < sr)%R in Hsr. change (sr / 2 <= 2147483647)%R in Hint.
  assert (Hdmin : (dmin <= 2147483647)%R) by (apply IZR_le; exact Hmin).
  assert (Hdmax : (dmax <= 2147483647)%R) by (apply IZR_le; exact Hmax).
  assert (Hlogpos : m_binScale s = BinScale_Log ->
                    (0 <= dmin)%R /\ (0 <= dmax)%R).
  { intros Hlog. destruct (Hpos Hlog). split; apply IZR_le; assumption. }
  assert (Hdist : (0 < newdist)%R) by (apply getValueForPosition_pos; exact Hsr).
  assert (Hwide : (newdist <= sr / 2)%R)
    by (apply getValueForPosition_le_nyquist; exact Hsr).
  assert (Hwidth : (newmax - newmin = newdist)%R).
  { subst newmin newmax e. unfold zoomExtents.
    destruct (_ =? _); cbn [fst snd]; lra. }
  assert (Hsmall : (newmin <= 2147483647)%R).
  { subst newmin newmax e. unfold zoomExtents in *.
    destruct (Z.eqb_spec (m_binScale s) BinScale_Log) as [Hlog|_];
      cbn [fst snd] in *; [|lra].
    destruct (Hlogpos Hlog) as [Hdmin0 Hdmax0].
    destruct (positive_root newdist dmin dmax Hdist Hdmin0 Hdmax0)
      as (Hroot & Hge & _).
    set (x := ((newdist + sqrt (newdist * newdist + 4 * dmin * dmax)) / 2)%R)
      in *.
    destruct (Rle_dec (x - newdist) 2147483647) as [|Hbig]; [assumption|].
    exfalso. nra. }
  destruct (setVerticalZoomStep_extents w s mdl step Hm) as [Emin Emax].
  fold sr dmin dmax newdist e newmin newmax s' in Emin, Emax.
  split; [split; assumption|]. split; [exact Hwidth|].
  split; [|split; [|split; [|split]]].
  - intros Hlog. destruct (Hlogpos Hlog) as [Hdmin0 Hdmax0].
    subst newmin newmax e. rewrite Hlog in *.
    change (BinScale_Log =? BinScale_Log) with true in *.
    cbn [zoomExtents fst snd] in *.
    destruct (positive_root newdist dmin dmax Hdist Hdmin0 Hdmax0)
      as (Hroot & Hge & Honly).
    set (x := ((newdist + sqrt (newdist * newdist + 4 * dmin * dmax)) / 2)%R)
      in *.
    split; [exact Hroot|]. split; [lra|]. split; [exact Honly|].
    split; [reflexivity|]. split; [lra|]. f_equal. lra.
  - intros Hlin. subst newmin newmax e.
    destruct (Z.eqb_spec (m_binScale s) BinScale_Log) as [E|_]; [contradiction|].
    cbn [zoomExtents fst snd]. lra.
  - intros Hlo Hhi.
    rewrite (clampExtents_inside 0 (sr / 2) newmin newmax Hlo Hhi) in Emin, Emax.
    cbn [fst snd] in Emin, Emax.
    rewrite (lrint_int newmin (sr / 2)) in Emin by lra.
    rewrite (lrint_int newmax (sr / 2)) in Emax by lra.
    pose proof (lrint_near newmin) as Nmin.
    pose proof (lrint_near newmax) as Nmax.
    subst storedMin storedMax. rewrite Emin, Emax.
    split; [reflexivity|]. split; [reflexivity|].
    split; [exact Nmin|]. split; [exact Nmax|].
    intros Hlin.
    assert (Hmid : ((newmin + newmax) / 2 = (dmin + dmax) / 2)%R).
    { subst newmin newmax e.
      destruct (Z.eqb_spec (m_binScale s) BinScale_Log) as [E|_];
        [contradiction|].
      cbn [zoomExtents fst snd]. lra. }
    lra.
  - intros Hlo Hhi.
    rewrite (clampExtents_above 0 (sr / 2) newmin newmax Hlo Hhi) in Emin, Emax.
    cbn [fst snd] in Emin, Emax.
    rewrite (lrint_int newmin 2147483647) in Emin by lra.
    rewrite (lrint_int (sr / 2) (sr / 2)) in Emax by lra.
    split; assumption.
  - intros Hlo.
    rewrite (clampExtents_below 0 (sr / 2) newmin newmax Hlo) in Emin, Emax
      by lra.
    cbn [fst snd] in Emin, Emax.
    replace (newmax + (0 - newmin))%R with newdist in Emax by lra.
    rewrite (lrint_int 0 (sr / 2)) in Emin by lra.
    rewrite (lrint_int newdist (sr / 2)) in Emax by lra.
    rewrite (lrint_IZR 0) in Emin. split; assumption.
Qed.

(** The ranges of steps 0 and 8: the Nyquist range and a quarter of it. *)
Lemma range_of_step_0 (sr : R) (fftsize : Z) :
  SpectrogramRangeMapper.getValueForPosition
    (SpectrogramRangeMapper.make sr fftsize) 0 = (sr / 2)%R.
Proof. rewrite MapperFacts.getValueForPosition_pow. simpl. lra. Qed.

Lemma range_of_step_8 (sr : R) (fftsize : Z) :
  SpectrogramRangeMapper.getValueForPosition
    (SpectrogramRangeMapper.make sr fftsize) 8 = (sr / 8)%R.
Proof.
  rewrite MapperFacts.getValueForPosition_pow.
  change (Z.to_nat 8) with (4 * 2)%nat. rewrite MapperFacts.s2_pow_4k.
  simpl. lra.
Qed.

Lemma sqrt_between (x lo hi : R) :
  (0 <= lo)%R -> (lo * lo < x < hi * hi)%R -> (0 <= hi)%R ->
  (lo < sqrt x < hi)%R.
Proof.
  intros Hlo [Hl Hh] Hhi.
  rewrite <- (sqrt_square lo Hlo), <- (sqrt_square hi Hhi).
  split; apply sqrt_lt_1_alt; nra.
Qed.

(** The pair computed for the melodic-range layer (log scale, 40 to 1500
    Hz, sample rate 44100) at step 8, of range 5512.5 Hz. *)
Lemma exMelodic_pair_at_step_8 :
  let e := zoomExtents true 40 1500 (44100 / 8) in
  (10 + 3 / 4 < fst e < 11)%R /\ (5523 + 1 / 4 < snd e < 5523 + 1 / 2)%R.
Proof.
  cbn [zoomExtents fst snd].
  pose proof (sqrt_between (44100 / 8 * (44100 / 8) + 4 * 40 * 1500)
                           5534 (5534 + 1 / 2) ltac:(lra) ltac:(lra) ltac:(lra)).
  lra.
Qed.

(** The same layer at step 0, the Nyquist range 22050 Hz. *)
Lemma exMelodic_pair_at_step_0 :
  let e := zoomExtents true 40 1500 (44100 / 2) in
  (2 + 1 / 2 < fst e < 3 + 1 / 2)%R /\ (44100 / 2 < snd e)%R.
Proof.
  cbn [zoomExtents fst snd].
  pose proof (sqrt_between (44100 / 2 * (44100 / 2) + 4 * 40 * 1500)
                           22055 22057 ltac:(lra) ltac:(lra) ltac:(lra)).
  lra.
Qed.

Lemma setVerticalZoomStep_stores_clamped_pair_witness :
  let s' := setVerticalZoomStep exLinearWorld 8 exMelodic in
  m_binScale exMelodic = BinScale_Log /\
  m_minFrequency exMelodic = 40 /\ m_maxFrequency exMelodic = 1500 /\
  m_minFrequency s' = 11 /\ m_maxFrequency s' = 5523.
Proof.
  assert (Hscale : m_binScale exMelodic = BinScale_Log)
    by (vm_compute; reflexivity).
  assert (Hmin : m_minFrequency exMelodic = 40) by (vm_compute; reflexivity).
  assert (Hmax : m_maxFrequency exMelodic = 1500) by (vm_compute; reflexivity).
  destruct (setVerticalZoomStep_stores_clamped_pair
              exLinearWorld exMelodic (exModel 44100) 8)
    as (_ & _ & _ & _ & Hstored & _).
  - vm_compute. reflexivity.
  - simpl. lra.
  - simpl. lra.
  - rewrite Hmin. lia.
  - rewrite Hmax. lia.
  - intros _. rewrite Hmin, Hmax. lia.
  - change (getSampleRate (exModel 44100)) with 44100%R in Hstored.
    rewrite range_of_step_8, Hscale, Hmin, Hmax in Hstored.
    change (BinScale_Log =? BinScale_Log) with true in Hstored.
    pose proof exMelodic_pair_at_step_8 as [Hlo Hhi].
    cbv zeta in Hlo, Hhi.
    destruct Hstored as (Emin & Emax & _); [lra|lra|].
    rewrite (lrint_within _ 11) in Emin by lra.
    rewrite (lrint_within _ 5523) in Emax by lra.
    cbv zeta. auto.
Defined.

(** The extents three layers are left with. *)
Lemma exDefault_at_step_0 :
  m_minFrequency (setVerticalZoomStep exLinearWorld 0 exDefault) = 0 /\
  m_maxFrequency (setVerticalZoomStep exLinearWorld 0 exDefault) = 22050.
Proof.
  destruct (setVerticalZoomStep_extents
              exLinearWorld exDefault (exModel 44100) 0) as [Emin Emax];
    [vm_compute; reflexivity|].
  change (getSampleRate (exModel 44100)) with 44100%R in Emin, Emax.
  rewrite range_of_step_0 in Emin, Emax.
  replace (m_binScale exDefault) with BinScale_Linear in Emin, Emax
    by (vm_compute; reflexivity).
  replace (m_minFrequency exDefault) with 10 in Emin, Emax
    by (vm_compute; reflexivity).
  replace (m_maxFrequency exDefault) with 8000 in Emin, Emax
    by (vm_compute; reflexivity).
  change (BinScale_Linear =? BinScale_Log) with false in Emin, Emax.
  cbn [zoomExtents fst snd] in Emin, Emax.
  rewrite clampExtents_below in Emin, Emax by lra.
  cbn [fst snd] in Emin, Emax.
  replace ((8000 + 10) / 2 + 44100 / 2 / 2
           + (0 - ((8000 + 10) / 2 - 44100 / 2 / 2)))%R
    with 22050%R in Emax by lra.
  rewrite lrint_IZR in Emin, Emax. split; assumption.
Qed.

Lemma exOddRange_at_step_8 :
  m_minFrequency (setVerticalZoomStep exLinearWorld 8 exOddRange) = 2500 /\
  m_maxFrequency (setVerticalZoomStep exLinearWorld 8 exOddRange) = 4500.
Proof.
  destruct (setVerticalZoomStep_extents
              exLinearWorld exOddRange (exModel 16000) 8) as [Emin Emax];
    [vm_compute; reflexivity|].
  change (getSampleRate (exModel 16000)) with 16000%R in Emin, Emax.
  rewrite range_of_step_8 in Emin, Emax.
  replace (m_binScale exOddRange) with BinScale_Linear in Emin, Emax
    by (vm_compute; reflexivity).
  replace (m_minFrequency exOddRange) with 3001 in Emin, Emax
    by (vm_compute; reflexivity).
  replace (m_maxFrequency exOddRange) with 4000 in Emin, Emax
    by (vm_compute; reflexivity).
  change (BinScale_Linear =? BinScale_Log) with false in Emin, Emax.
  cbn [zoomExtents fst snd] in Emin, Emax.
  rewrite clampExtents_inside in Emin, Emax by lra.
  cbn [fst snd] in Emin, Emax.
  replace ((4000 + 3001) / 2 - 16000 / 8 / 2)%R with (2500 + 1 / 2)%R
    in Emin by lra.
  replace ((4000 + 3001) / 2 + 16000 / 8 / 2)%R with (4500 + 1 / 2)%R
    in Emax by lra.
  rewrite lrint_tie in Emin, Emax. split; assumption.
Qed.

Lemma exMelodic_at_step_0 :
  m_minFrequency (setVerticalZoomStep exLinearWorld 0 exMelodic) = 3 /\
  m_maxFrequency (setVerticalZoomStep exLinearWorld 0 exMelodic) = 22050.
Proof.
  destruct (setVerticalZoomStep_extents
              exLinearWorld exMelodic (exModel 44100) 0) as [Emin Emax];
    [vm_compute; reflexivity|].
  change (getSampleRate (exModel 44100)) with 44100%R in Emin, Emax.
  rewrite range_of_step_0 in Emin, Emax.
  replace (m_binScale exMelodic) with BinScale_Log in Emin, Emax
    by (vm_compute; reflexivity).
  replace (m_minFrequency exMelodic) with 40 in Emin, Emax
    by (vm_compute; reflexivity).
  replace (m_maxFrequency exMelodic) with 1500 in Emin, Emax
    by (vm_compute; reflexivity).
  change (BinScale_Log =? BinScale_Log) with true in Emin, Emax.
  pose proof exMelodic_pair_at_step_0 as [Hlo Hhi]. cbv zeta in Hlo, Hhi.
  rewrite clampExtents_above in Emin, Emax by lra.
  cbn [fst snd] in Emin, Emax.
  rewrite (lrint_within _ 3) in Emin by lra.
  replace (44100 / 2)%R with 22050%R in Emax by lra.
  rewrite lrint_IZR in Emax. split; assumption.
Qed.

(** C4, the claim as written fails, for the extents the layer is left
    with.  The layer as constructed (linear scale, 10 to 8000 Hz, sample
    rate 44100) at step 0: the pair runs from -7020 Hz, it is moved up to
    start at 0, and the layer stores 0 to 22050 Hz, with midpoint 11025 and
    not 4005.  A linear layer from 3001 to 4000 Hz at sample rate 16000,
    at step 8 (range 2000 Hz): the pair 2500.5 to 4500.5 is within the
    Nyquist range and is stored rounded, as 2500 to 4500, with midpoint
    3500 and not 3500.5.  The melodic-range layer (log scale, 40 to 1500
    Hz, sample rate 44100) at step 0: the positive root is above the
    Nyquist frequency and the layer stores 3 to 22050 Hz; 22050 is not a
    root of the quadratic, and the product of the stored extents is not
    that of the extents before. *)
Lemma setVerticalZoomStep_moves_midpoint :
  (let s' := setVerticalZoomStep exLinearWorld 0 exDefault in
   m_binScale exDefault = BinScale_Linear /\
   m_minFrequency exDefault = 10 /\ m_maxFrequency exDefault = 8000 /\
   m_minFrequency s' = 0 /\ m_maxFrequency s' = 22050 /\
   ((IZR (m_minFrequency s') + IZR (m_maxFrequency s')) / 2
    <> (IZR (m_minFrequency exDefault) + IZR (m_maxFrequency exDefault)) / 2)%R)
  /\
  (let s' := setVerticalZoomStep exLinearWorld 8 exOddRange in
   m_binScale exOddRange = BinScale_Linear /\
   m_minFrequency exOddRange = 3001 /\ m_maxFrequency exOddRange = 4000 /\
   m_minFrequency s' = 2500 /\ m_maxFrequency s' = 4500 /\
   ((IZR (m_minFrequency s') + IZR (m_maxFrequency s')) / 2
    <> (IZR (m_minFrequency exOddRange) + IZR (m_maxFrequency exOddRange)) / 2)%R)
  /\
  (let s' := setVerticalZoomStep exLinearWorld 0 exMelodic in
   let newdist :=
     SpectrogramRangeMapper.getValueForPosition
       (SpectrogramRangeMapper.make 44100 (getFFTSize exLinearWorld exMelodic))
       0 in
   let newmax := IZR (m_maxFrequency s') in
   m_binScale exMelodic = BinScale_Log /\
   m_minFrequency exMelodic = 40 /\ m_maxFrequency exMelodic = 1500 /\
   m_minFrequency s' = 3 /\ m_maxFrequency s' = 22050 /\
   (newmax * newmax - newdist * newmax - 40 * 1500 <> 0)%R /\
   (IZR (m_minFrequency s') * IZR (m_maxFrequency s')
    <> IZR (m_minFrequency exMelodic) * IZR (m_maxFrequency exMelodic))%R).
Proof.
  destruct exDefault_at_step_0 as [D0 D1].
  destruct exOddRange_at_step_8 as [O0 O1].
  destruct exMelodic_at_step_0 as [M0 M1].
  cbv zeta. rewrite D0, D1, O0, O1, M0, M1, range_of_step_0.
  replace (m_minFrequency exDefault) with 10 by (vm_compute; reflexivity).
  replace (m_maxFrequency exDefault) with 8000 by (vm_compute; reflexivity).
  replace (m_minFrequency exOddRange) with 3001 by (vm_compute; reflexivity).
  replace (m_maxFrequency exOddRange) with 4000 by (vm_compute; reflexivity).
  replace (m_minFrequency exMelodic) with 40 by (vm_compute; reflexivity).
  replace (m_maxFrequency exMelodic) with 1500 by (vm_compute; reflexivity).
  repeat apply conj;
    first [reflexivity | lra | vm_compute; reflexivity].
Qed.

(** ** Peak-adjusted frequency range *)

Lemma fold_left_bind {A B C : Type} (f : A -> C -> A) (g : B -> list C)
    (l : list B) (a : A) :
  fold_left f (l ≫= g) a = fold_left (fun a x => fold_left f (g x) a) l a.
Proof.
  revert a. induction l as [|x l IH]; intros a; [reflexivity|].
  change ((x :: l) ≫= g) with (g x ++ (l ≫= g)).
  rewrite fold_left_app. apply IH.
Qed.

Lemma fold_left_pointwise {A B : Type} (f g : A -> B -> A) (l : list B) (a : A) :
  (forall a x, f a x = g a x) -> fold_left f l a = fold_left g l a.
Proof.
  intros H. revert a. induction l as [|x l IH]; intros a; [reflexivity|].
  simpl. rewrite H. apply IH.
Qed.

Lemma adjustedLoops_cells (fft : FFTModel) (peaksOnly : bool) (threshold : Q)
    (sr : R) (windowSize s0i s1i q0i q1i : Z) (acc : FrequencyRanges * bool) :
  adjustedLoops fft peaksOnly threshold sr windowSize s0i s1i q0i q1i acc
  = fold_left
      (fun acc cell =>
         adjustedCell fft peaksOnly threshold sr windowSize q0i q1i
                      (fst cell) (snd cell) acc)
      (blockCells s0i s1i q0i q1i) acc.
Proof.
  unfold adjustedLoops, blockCells.
  rewrite fold_left_bind. apply fold_left_pointwise. intros a q.
  rewrite fold_left_bind. apply fold_left_pointwise. intros a' s.
  reflexivity.
Qed.

Lemma isMinimumOf_snoc (x f : R) (l : list R) :
  isMinimumOf x l ->
  isMinimumOf (if Rltb f x then f else x) (l ++ [f]).
Proof.
  intros [Hin Hle]. unfold Rltb. destruct (Rlt_dec f x) as [Hlt|Hge].
  - split; [apply in_or_app; right; left; reflexivity|].
    intros y Hy. apply in_app_or in Hy as [Hy|[<-|[]]];
      [specialize (Hle y Hy)|]; lra.
  - split; [apply in_or_app; left; exact Hin|].
    intros y Hy. apply in_app_or in Hy as [Hy|[<-|[]]];
      [apply Hle; exact Hy|lra].
Qed.

Lemma isMaximumOf_snoc (x f : R) (l : list R) :
  isMaximumOf x l ->
  isMaximumOf (if Rltb x f then f else x) (l ++ [f]).
Proof.
  intros [Hin Hle]. unfold Rltb. destruct (Rlt_dec x f) as [Hlt|Hge].
  - split; [apply in_or_app; right; left; reflexivity|].
    intros y Hy. apply in_app_or in Hy as [Hy|[<-|[]]];
      [specialize (Hle y Hy)|]; lra.
  - split; [apply in_or_app; left; exact Hin|].
    intros y Hy. apply in_app_or in Hy as [Hy|[<-|[]]];
      [apply Hle; exact Hy|lra].
Qed.

Lemma isMinimumOf_single (f : R) : isMinimumOf f [f].
Proof.
  split; [left; reflexivity|]. intros y [<-|[]]. lra.
Qed.

Lemma isMaximumOf_single (f : R) : isMaximumOf f [f].
Proof.
  split; [left; reflexivity|]. intros y [<-|[]]. lra.
Qed.

Lemma estimates_snoc (fft : FFTModel) (peaksOnly : bool) (threshold : Q)
    (sr : R) (windowSize : Z) (seen : list (Z * Z)) (cell : Z * Z) :
  estimates fft peaksOnly threshold sr windowSize (seen ++ [cell])
  = estimates fft peaksOnly threshold sr windowSize seen
    ++ (if passes fft peaksOnly threshold cell
        then [estimate fft sr windowSize cell] else []).
Proof.
  unfold estimates. rewrite List.filter_app, map_app. simpl.
  destruct (passes _ _ _ cell); reflexivity.
Qed.

Lemma tracked_step (fft : FFTModel) (peaksOnly : bool) (threshold : Q)
    (sr : R) (windowSize q0i q1i : Z) (seen : list (Z * Z)) (cell : Z * Z)
    (acc : FrequencyRanges * bool) :
  tracked fft peaksOnly threshold sr windowSize seen acc ->
  tracked fft peaksOnly threshold sr windowSize (seen ++ [cell])
          (adjustedCell fft peaksOnly threshold sr windowSize q0i q1i
                        (fst cell) (snd cell) acc).
Proof.
  intros Hacc. unfold tracked in *. rewrite estimates_snoc.
  set (est := estimates fft peaksOnly threshold sr windowSize seen) in *.
  clearbody est.
  destruct cell as [q s], acc as [r haveAdj].
  unfold adjustedCell, passes. cbn [fst snd] in *.
  set (r1 := if q =? q0i then _ else r).
  set (r2 := if q =? q1i then _ else r1).
  assert (Hmin : adjFreqMin r2 = adjFreqMin r)
    by (subst r2 r1; destruct (q =? q1i), (q =? q0i); reflexivity).
  assert (Hmax : adjFreqMax r2 = adjFreqMax r)
    by (subst r2 r1; destruct (q =? q1i), (q =? q0i); reflexivity).
  clearbody r2. clear r1.
  destruct peaksOnly, (be_isLocalPeak (fft_backend fft) s q),
    (be_isOverThreshold (fft_backend fft) s q threshold),
    (s <? be_width (fft_backend fft) - 1);
    cbn [negb andb orb fst snd];
    try (rewrite app_nil_r, ?Hmin, ?Hmax; exact Hacc).
  all: unfold estimate;
    set (f := be_estimateStableFrequency (fft_backend fft) s q _);
    right; split; [reflexivity|];
    destruct Hacc as [[Hh He]|(Hh & Hlo & Hhi)];
      subst haveAdj; cbn [negb orb];
      [ rewrite He; cbn [adjFreqMin adjFreqMax app];
        split; [apply isMinimumOf_single|apply isMaximumOf_single]
      | ].
  all: rewrite <- Hmin in Hlo; rewrite <- Hmax in Hhi;
    apply (isMinimumOf_snoc _ f) in Hlo;
    apply (isMaximumOf_snoc _ f) in Hhi;
    destruct (Rltb f (adjFreqMin r2)); cbn [adjFreqMin adjFreqMax];
    destruct (Rltb (adjFreqMax r2) f); cbn [adjFreqMin adjFreqMax];
    split; assumption.
Qed.

Lemma tracked_fold (fft : FFTModel) (peaksOnly : bool) (threshold : Q)
    (sr : R) (windowSize q0i q1i : Z) (cells seen : list (Z * Z))
    (acc : FrequencyRanges * bool) :
  tracked fft peaksOnly threshold sr windowSize seen acc ->
  tracked fft peaksOnly threshold sr windowSize (seen ++ cells)
    (fold_left
       (fun acc cell =>
          adjustedCell fft peaksOnly threshold sr windowSize q0i q1i
                       (fst cell) (snd cell) acc)
       cells acc).
Proof.
  revert seen acc. induction cells as [|cell cells IH]; intros seen acc H.
  - rewrite app_nil_r. exact H.
  - simpl. replace (seen ++ cell :: cells) with ((seen ++ [cell]) ++ cells)
      by (rewrite <- app_assoc; reflexivity).
    apply IH, tracked_step, H.
Qed.

Lemma getFFTModel_keeps_parameters (w : World) (s s' : Layer)
    (f : option FFTModel) :
  getFFTModel w s = (f, s') ->
  m_binDisplay s' = m_binDisplay s /\ m_threshold s' = m_threshold s /\
  m_windowSize s' = m_windowSize s.
Proof.
  unfold getFFTModel.
  destruct (m_model s); [|intros [= _ <-]; auto].
  destruct (match m_fftModel s with Some _ => _ | None => _ end);
    [intros [= _ <-]; auto|].
  destruct (negb _); intros [= _ <-]; auto.
Qed.

(** Without a model the function returns [false] at once and does not
    touch its reference arguments. *)
Lemma getAdjustedYBinSourceRange_without_model
    (w : World) (s : Layer) (v : LayerGeometryProvider) (x y : Z)
    (out : FrequencyRanges) :
  m_model s = None ->
  getAdjustedYBinSourceRange w s v x y out = Some (false, out, s).
Proof. intros H. unfold getAdjustedYBinSourceRange. rewrite H. reflexivity. Qed.

(** C8.  In peak-frequency display, for a pixel of a ready model that has
    a bin block (the FFT model is there and both the column and the row are
    in range): when no bin of the block is a local peak over the threshold
    with a next time column, [getAdjustedYBinSourceRange] returns [false]
    and leaves 0.0 in both adjusted frequencies; otherwise it returns
    [true] and leaves in them the minimum and the maximum of what
    [estimateStableFrequency] answers over exactly the passing bins. *)
Theorem adjusted_range_is_over_passing_bins
    (w : World) (s s' : Layer) (v : LayerGeometryProvider) (x y : Z)
    (out : FrequencyRanges) (mdl : DenseTimeValueModel) (fft : FFTModel)
    (s0 s1 q0 q1 : R) :
  m_model s = Some mdl ->
  isOK mdl = true ->
  isReady mdl = true ->
  m_binDisplay s = BinDisplay_PeakFrequencies ->
  getFFTModel w s = (Some fft, s') ->
  getXBinRange w s' v x = Some (Some (s0, s1)) ->
  getYBinRange w s' v y = Some (Some (q0, q1)) ->
  let cells := blockCells (to_int (s0 + 1 / 1000)%R) (to_int s1)
                          (to_int (q0 + 1 / 1000)%R) (to_int q1) in
  let threshold := (m_threshold s * inject_Z (getFFTSize w s) / 2)%Q in
  let passing := List.filter (passes fft true threshold) cells in
  let found := map (estimate fft (getSampleRate mdl) (m_windowSize s)) passing in
  exists (ret : bool) (r : FrequencyRanges),
    getAdjustedYBinSourceRange w s v x y out = Some (ret, r, s') /\
    (passing = [] ->
     ret = false /\ adjFreqMin r = 0%R /\ adjFreqMax r = 0%R) /\
    (passing <> [] ->
     ret = true /\
     isMinimumOf (adjFreqMin r) found /\ isMaximumOf (adjFreqMax r) found).
Proof.
  intros Hm Hok Hready Hpeak Hfft Hx Hy cells threshold passing found.
  destruct (getFFTModel_keeps_parameters w s s' _ Hfft) as (Ebd & Eth & Ews).
  assert (Efs : getFFTSize w s' = getFFTSize w s)
    by (unfold getFFTSize, getFFTOversampling; rewrite Ebd, Ews; reflexivity).
  unfold getAdjustedYBinSourceRange.
  rewrite Hm, Hok, Hready. cbn [negb orb]. rewrite Hfft, Hx.
  cbn [mbind option_bind]. rewrite Hy. cbn [mbind option_bind].
  rewrite Ebd, Eth, Ews, Efs, Hpeak. cbn [Z.eqb Pos.eqb orb].
  fold threshold. rewrite adjustedLoops_cells. fold cells.
  pose proof (tracked_fold fft true threshold (getSampleRate mdl)
                (m_windowSize s) (to_int (q0 + 1 / 1000)%R) (to_int q1)
                cells [] (out, false)) as Hinv.
  cbn [app] in Hinv.
  destruct (fold_left _ cells (out, false)) as [r haveAdj].
  specialize (Hinv ltac:(left; split; reflexivity)).
  unfold tracked, estimates in Hinv. fold passing found in Hinv.
  cbn [fst snd] in Hinv.
  destruct Hinv as [[-> Hnone]|(-> & Hlo & Hhi)]; cbn [negb].
  - eexists. eexists. split; [reflexivity|].
    assert (Hp : passing = [])
      by (subst found; destruct passing; [reflexivity|discriminate]).
    split; [intros _; auto|]. intros Hne. contradiction.
  - eexists. eexists. split; [reflexivity|].
    split; [|intros _; auto].
    intros Hp. subst found. rewrite Hp in Hlo. destruct Hlo as [[] _].
Qed.

Lemma adjusted_range_is_over_passing_bins_witness :
  exists r : FrequencyRanges,
    getAdjustedYBinSourceRange exPeakWorld exPeaks exFlatView 1 7
                               (MkRanges 0 0 0 0)
    = Some (true, r, snd (getFFTModel exPeakWorld exPeaks)) /\
    adjFreqMin r = (1024 * 3 / 1024 + 1)%R /\
    adjFreqMax r = (1024 * 3 / 1024 + 1)%R.
Proof.
  destruct (adjusted_range_is_over_passing_bins
              exPeakWorld exPeaks (snd (getFFTModel exPeakWorld exPeaks))
              exFlatView 1 7 (MkRanges 0 0 0 0) (exModel 1024) exPeakFFT
              (256 / 256)%R (511 / 256)%R
              ((10 - 7) * 1024 / 1024)%R ((10 - 6) * 1024 / 1024)%R)
    as (ret & r & Hcall & _ & Hsome).
  - vm_compute. reflexivity.
  - reflexivity.
  - reflexivity.
  - vm_compute. reflexivity.
  - vm_compute. reflexivity.
  - vm_compute. reflexivity.
  - vm_compute. reflexivity.
  - rewrite (to_int_between (256 / 256 + 1 / 1000) 1) in Hsome by (try lia; lra).
    rewrite (to_int_between (511 / 256) 1) in Hsome by (try lia; lra).
    rewrite (to_int_between ((10 - 7) * 1024 / 1024 + 1 / 1000) 3) in Hsome
      by (try lia; lra).
    rewrite (to_int_between ((10 - 6) * 1024 / 1024) 4) in Hsome by (try lia; lra).
    change (List.filter _ (blockCells 1 1 3 4)) with [(3, 1)] in Hsome.
    destruct (Hsome ltac:(discriminate)) as (-> & [Hlo _] & [Hhi _]).
    exists r. split; [exact Hcall|].
    destruct Hlo as [Hlo|[]]. destruct Hhi as [Hhi|[]].
    split; [rewrite <- Hlo|rewrite <- Hhi]; reflexivity.
Defined.

(** On a model that ends at frame [2^31] the test of [getXBinRange] reads
    the end as [int(modelEnd)], a negative number: column 1, which starts
    at frame 256, is taken to lie after the end and has no bin block. *)
Lemma getXBinRange_end_narrowed :
  getEndFrame exLongModel = 2147483648 /\
  int_of_int64 (getEndFrame exLongModel) = -2147483648 /\
  getXBinRange exPeakWorld exLongPeaks exFlatView 1 = Some None /\
  exists s' : Layer,
    getAdjustedYBinSourceRange exPeakWorld exLongPeaks exFlatView 1 7
                               (MkRanges 0 0 0 0)
    = Some (false, MkRanges 0 0 0 0, s').
Proof.
  repeat apply conj; try (vm_compute; reflexivity).
  exists (snd (getFFTModel exPeakWorld exLongPeaks)).
  unfold getAdjustedYBinSourceRange.
  replace (m_model exLongPeaks) with (Some exLongModel)
    by (vm_compute; reflexivity).
  cbn [isOK isReady exLongModel negb orb].
  assert (Hx : getXBinRange exPeakWorld
                 (snd (getFFTModel exPeakWorld exLongPeaks)) exFlatView 1
               = Some None) by (vm_compute; reflexivity).
  destruct (getFFTModel exPeakWorld exLongPeaks) as [[fft|] s'];
    cbn [snd] in *; [rewrite Hx|]; reflexivity.
Qed.

(** ** Round trip along the frequency axis *)








(** ** Loading legacy hybrid normalization *)

Lemma setGain_gain (g : Q) (s : Layer) : (m_gain (setGain g s) == g)%Q.
Proof.
  unfold setGain. destruct (Qeq_bool (m_gain s) g) eqn:E.
  - apply Qeq_bool_iff. exact E.
  - reflexivity.
Qed.

Lemma setGain_fftSize (w : World) (g : Q) (s : Layer) :
  getFFTSize w (setGain g s) = getFFTSize w s.
Proof. unfold setGain. destruct (Qeq_bool _ _); reflexivity. Qed.

Lemma setGain_normalization (g : Q) (s : Layer) :
  m_normalization (setGain g s) = m_normalization s.
Proof. unfold setGain. destruct (Qeq_bool _ _); reflexivity. Qed.

(** Setters that leave the gain alone. *)
Ltac setter_keeps_gain :=
  intros;
  unfold setChannel, setWindowSize, setWindowHopLevel, setThreshold,
    setMinFrequency, setMaxFrequency, setColourScale, setColourMap,
    setColourRotation, setBinScale, setBinDisplay, setNormalization,
    setNormalizeVisibleArea;
  repeat match goal with |- context [if ?b then _ else _] => destruct b end;
  reflexivity.

Lemma setChannel_gain ch s : m_gain (setChannel ch s) = m_gain s.
Proof. setter_keeps_gain. Qed.
Lemma setWindowSize_gain ws s : m_gain (setWindowSize ws s) = m_gain s.
Proof. setter_keeps_gain. Qed.
Lemma setWindowHopLevel_gain v s : m_gain (setWindowHopLevel v s) = m_gain s.
Proof. setter_keeps_gain. Qed.
Lemma setThreshold_gain t s : m_gain (setThreshold t s) = m_gain s.
Proof. setter_keeps_gain. Qed.
Lemma setMinFrequency_gain mf s : m_gain (setMinFrequency mf s) = m_gain s.
Proof. setter_keeps_gain. Qed.
Lemma setMaxFrequency_gain mf s : m_gain (setMaxFrequency mf s) = m_gain s.
Proof. setter_keeps_gain. Qed.
Lemma setColourScale_gain c s : m_gain (setColourScale c s) = m_gain s.
Proof. setter_keeps_gain. Qed.
Lemma setColourMap_gain c s : m_gain (setColourMap c s) = m_gain s.
Proof. setter_keeps_gain. Qed.
Lemma setColourRotation_gain r s : m_gain (setColourRotation r s) = m_gain s.
Proof. setter_keeps_gain. Qed.
Lemma setBinScale_gain b s : m_gain (setBinScale b s) = m_gain s.
Proof. setter_keeps_gain. Qed.
Lemma setBinDisplay_gain b s : m_gain (setBinDisplay b s) = m_gain s.
Proof. setter_keeps_gain. Qed.
Lemma setNormalization_gain n s : m_gain (setNormalization n s) = m_gain s.
Proof. setter_keeps_gain. Qed.
Lemma setNormalizeVisibleArea_gain n s :
  m_gain (setNormalizeVisibleArea n s) = m_gain s.
Proof. setter_keeps_gain. Qed.

Lemma with_ok_gain {A} (parsed : option A) (f : A -> Layer -> Layer)
    (s : Layer) :
  (forall a s, m_gain (f a s) = m_gain s) ->
  m_gain (with_ok parsed f s) = m_gain s.
Proof. intros H. destruct parsed; simpl; auto. Qed.

Lemma setNormalization_normalization (n : ColumnNormalization) (s : Layer) :
  m_normalization (setNormalization n s) = n.
Proof.
  unfold setNormalization.
  destruct (eqb_ColumnNormalization (m_normalization s) n) eqn:E;
    [|reflexivity].
  destruct (m_normalization s), n; try discriminate; reflexivity.
Qed.

Lemma setNormalizeVisibleArea_normalization (n : bool) (s : Layer) :
  m_normalization (setNormalizeVisibleArea n s) = m_normalization s.
Proof. unfold setNormalizeVisibleArea. destruct (Bool.eqb _ _); reflexivity. Qed.

Create Rewrite HintDb keeps_gain.
#[local] Hint Rewrite
  setThreshold_gain setMinFrequency_gain setMaxFrequency_gain
  setColourScale_gain setColourMap_gain setColourRotation_gain
  setBinScale_gain setBinDisplay_gain setNormalization_gain
  setNormalizeVisibleArea_gain setChannel_gain setWindowSize_gain
  setWindowHopLevel_gain : keeps_gain.

Lemma parameters_gain (w : World) (attributes : QXmlAttributes) (s : Layer) :
  (m_gain (setProperties_parameters w attributes s)
   == storedGain w attributes s)%Q.
Proof.
  unfold setProperties_parameters. cbv zeta.
  rewrite !with_ok_gain
    by (intros; autorewrite with keeps_gain; reflexivity).
  unfold storedGain.
  set (s3 := match toUInt w (attr_value attributes "windowHopLevel") with
             | Some _ => _ | None => _ end).
  assert (E3 : m_gain s3 = m_gain s).
  { subst s3.
    assert (E2 : forall t,
               m_gain (with_ok (toUInt w (attr_value attributes "windowSize"))
                         (fun u => setWindowSize (int_of_uint u))
                         (with_ok (toInt w (attr_value attributes "channel"))
                                  setChannel t)) = m_gain t)
      by (intros; rewrite !with_ok_gain
            by (intros; autorewrite with keeps_gain; reflexivity);
          reflexivity).
    repeat match goal with
           | |- context [match ?x with _ => _ end] => destruct x
           end;
      autorewrite with keeps_gain; apply E2. }
  destruct (toFloat w _); simpl.
  - apply setGain_gain.
  - rewrite E3. reflexivity.
Qed.

Lemma normalization_gain (attributes : QXmlAttributes) (s : Layer) :
  m_gain (snd (setProperties_normalization attributes s)) = m_gain s.
Proof.
  unfold setProperties_normalization. cbv zeta. cbn [snd].
  repeat match goal with
         | |- context [if ?b then _ else _] => destruct b
         end;
    autorewrite with keeps_gain; reflexivity.
Qed.

Lemma normalization_legacy_hybrid (attributes : QXmlAttributes) (s : Layer) :
  attr_value attributes "columnNormalization" = EmptyString ->
  attr_value attributes "normalizeHybrid" = "true"%string ->
  fst (setProperties_normalization attributes s) = false /\
  m_normalization (snd (setProperties_normalization attributes s)) = CN_Hybrid.
Proof.
  intros Hcol Hhyb. unfold setProperties_normalization. cbv zeta.
  rewrite Hcol, Hhyb. cbn [fst snd]. split; [reflexivity|].
  rewrite setNormalizeVisibleArea_normalization.
  change (trimmed "true" =? "true")%string with true.
  cbn [String.eqb negb].
  apply setNormalization_normalization.
Qed.

Lemma normalization_new_style (attributes : QXmlAttributes) (s : Layer) :
  attr_value attributes "columnNormalization" <> EmptyString ->
  fst (setProperties_normalization attributes s) = true.
Proof.
  intros Hcol. unfold setProperties_normalization. cbv zeta. cbn [fst].
  destruct (String.eqb_spec (attr_value attributes "columnNormalization")
                            EmptyString); [contradiction|reflexivity].
Qed.

(** C2.  [setProperties] on attributes without a [columnNormalization]
    value and with [normalizeHybrid] equal to [true] leaves the layer with
    Hybrid normalization and with the stored gain divided by
    [fftSize / 2] (the integer quotient; the FFT size is at least 2, so
    that the divisor is not zero).  With a [columnNormalization] value the
    stored gain is left as it is.  An attribute is there when
    [QXmlAttributes::value] answers a non-empty string for it, which is the
    test the code makes. *)
Theorem legacy_hybrid_gain_is_divided
    (w : World) (attributes : QXmlAttributes) (s : Layer) :
  let s' := setProperties w attributes s in
  let stored := storedGain w attributes s in
  (attr_value attributes "columnNormalization" = EmptyString ->
   attr_value attributes "normalizeHybrid" = "true"%string ->
   m_normalization s' = CN_Hybrid /\
   (2 <= getFFTSize w s' ->
    (m_gain s' == stored / inject_Z (getFFTSize w s' `quot` 2))%Q)) /\
  (attr_value attributes "columnNormalization" <> EmptyString ->
   (m_gain s' == stored)%Q).
Proof.
  intros s' stored. subst s' stored. unfold setProperties.
  set (s1 := setProperties_parameters w attributes s).
  pose proof (parameters_gain w attributes s) as Hstored. fold s1 in Hstored.
  pose proof (normalization_gain attributes s1) as Hkeep.
  split.
  - intros Hcol Hhyb.
    destruct (normalization_legacy_hybrid attributes s1 Hcol Hhyb)
      as [Hnew Hn].
    destruct (setProperties_normalization attributes s1) as [haveNew s2].
    cbn [fst snd] in *. subst haveNew. rewrite Hn. cbn [negb andb].
    change (eqb_ColumnNormalization CN_Hybrid CN_Hybrid) with true.
    cbv iota. split.
    + rewrite setGain_normalization. exact Hn.
    + intros _. rewrite setGain_fftSize, setGain_gain, Hkeep, Hstored.
      reflexivity.
  - intros Hcol.
    pose proof (normalization_new_style attributes s1 Hcol) as Hnew.
    destruct (setProperties_normalization attributes s1) as [haveNew s2].
    cbn [fst snd] in *. subst haveNew. cbn [negb andb].
    rewrite Hkeep. exact Hstored.
Qed.

Lemma legacy_hybrid_gain_is_divided_witness :
  let w := exLinearWorld in
  let s := SpectrogramLayer_new w OtherConfiguration in
  (m_normalization (setProperties w exLegacyAttributes s) = CN_Hybrid /\
   getFFTSize w (setProperties w exLegacyAttributes s) = 2048 /\
   (m_gain (setProperties w exLegacyAttributes s) == 1 / 1024)%Q) /\
  (m_gain (setProperties w exNewAttributes s) == 1)%Q.
Proof.
  intros w s. subst w s. split.
  - destruct (legacy_hybrid_gain_is_divided
                exLinearWorld exLegacyAttributes
                (SpectrogramLayer_new exLinearWorld OtherConfiguration))
      as [Hlegacy _].
    destruct (Hlegacy eq_refl eq_refl) as [Hn Hg].
    split; [exact Hn|]. split; [vm_compute; reflexivity|].
    rewrite Hg by (vm_compute; discriminate).
    vm_compute. reflexivity.
  - destruct (legacy_hybrid_gain_is_divided
                exLinearWorld exNewAttributes
                (SpectrogramLayer_new exLinearWorld OtherConfiguration))
      as [_ Hnew].
    rewrite Hnew by (vm_compute; discriminate).
    vm_compute. reflexivity.
Defined.
